(* ===================================================================== *)
(* Corely.io -- src/utils/stripe.ts                                      *)
(*                                                                       *)
(* A shallow embedding of the server-side billing helpers                *)
(*   hasSubscription, createCustomerIfNull,                              *)
(*   checkLessonPlanCreationEligibility                                  *)
(* and the properties of the lesson-plan quota that follow from them.    *)
(*                                                                       *)
(* The three helpers are sequences of awaited calls to Clerk (session),  *)
(* Prisma (user and lessonPlan tables) and Stripe (customers and         *)
(* subscriptions).  They are embedded in a state-and-exception monad     *)
(* over a [World] that holds the data those services answer from and a   *)
(* chronological log of the calls made to them.                          *)
(*                                                                       *)
(* Numbers.  Every number the code handles is an integral time value or  *)
(* a row count, far below 2^53, so JavaScript's doubles are exact on     *)
(* them; they are modelled in Z.  A [Date] is its time value in          *)
(* milliseconds since the epoch, taken to be within the range of valid   *)
(* dates.                                                                *)
(*                                                                       *)
(* Services.  A call to a service answers from the world; a service that *)
(* is down or refuses is outside the model.  The exceptions modelled are *)
(* the ones stripe.ts raises or provokes itself: the explicit throw of   *)
(* createCustomerIfNull, its read of emailAddresses[0], and an update of *)
(* a row that does not exist.                                            *)
(* ===================================================================== *)

From Stdlib Require Import ZArith Lia DecimalString.
From stdpp Require Import gmap strings list fin_maps.

Local Open Scope string_scope.
Local Open Scope Z_scope.

(* --------------------------------------------------------------------- *)
(* Data model                                                            *)
(* --------------------------------------------------------------------- *)

(** interface StripeSubscription (stripe.ts:7-12); epoch seconds. *)
Record StripeSubscription := {
  status : string;
  current_period_start : Z;
  current_period_end : Z;
  created : Z
}.

(** What Clerk's currentUser() yields, as far as this file reads it. *)
Record EmailAddress := { emailAddress : string }.

Record ClerkUser := {
  clerk_id : string;
  firstName : option string;
  lastName : option string;
  emailAddresses : list EmailAddress
}.

(** A row of prisma.user as findUnique returns it.  The table itself is
    keyed by the primary key, so a stored row holds the other column. *)
Record UserDB := {
  db_id : string;
  stripe_customer_id : option string
}.

(** A row of prisma.lessonPlan; createdAt is a Date (milliseconds). *)
Record LessonPlan := {
  userId : string;
  createdAt : Z
}.

Record StripeCustomer := {
  customer_id : string;
  customer_email : string;
  customer_name : string
}.

(** Return type of hasSubscription (stripe.ts:15-18). *)
Record SubscriptionInfo := {
  isSubscribed : bool;
  subscriptionData : list StripeSubscription
}.

(** Return type of checkLessonPlanCreationEligibility (stripe.ts:123-127). *)
Record EligibilityDecision := {
  isEligible : bool;
  message : string;
  remainingGenerations : Z
}.

(** One awaited call to an external service, with its arguments. *)
Inductive Call :=
| Clerk_auth
| Clerk_currentUser
| Prisma_user_findUnique (id : string)
| Prisma_user_update (id customer : string)
| Prisma_lessonPlan_count (uid : string) (gte lte : Z)
| Stripe_subscriptions_list (customer : string)
| Stripe_customers_create (email name : string).

Record World := {
  session_userId : option string;          (* auth().userId *)
  session_user : option ClerkUser;         (* currentUser() *)
  user_table : gmap string (option string);(* id |-> stripe_customer_id *)
  lessonPlan_table : list LessonPlan;
  stripe_subscriptions : gmap string (list StripeSubscription);
  stripe_customers : list StripeCustomer;
  clock : Z;                               (* what new Date() reads, ms *)
  calls : list Call                        (* oldest first *)
}.

(** What the host supplies and the source does not fix: the locale and
    time zone behind Date.prototype.toLocaleDateString, and the
    identifier Stripe gives to its n-th customer. *)
Class Host := {
  toLocaleDateString : Z -> string;
  newCustomerId : nat -> string
}.

(* --------------------------------------------------------------------- *)
(* The monad of server actions                                           *)
(* --------------------------------------------------------------------- *)

Inductive Result (A : Type) :=
| Ok (a : A)
| Throw (e : string).
Arguments Ok {A} a.
Arguments Throw {A} e.

Definition M (A : Type) : Type := World -> Result A * World.

Definition ret {A} (a : A) : M A := fun w => (Ok a, w).

Definition throw {A} (e : string) : M A := fun w => (Throw e, w).

Definition bind {A B} (m : M A) (k : A -> M B) : M B :=
  fun w =>
    match m w with
    | (Ok a, w') => k a w'
    | (Throw e, w') => (Throw e, w')
    end.

Declare Scope action_scope.
Delimit Scope action_scope with action.
Notation "x <- m ;; k" := (bind m (fun x => k))
  (at level 100, m at next level, right associativity) : action_scope.
Local Open Scope action_scope.

(** The world with its log replaced; every other field is kept. *)
Definition with_calls (l : list Call) (w : World) : World :=
  {| session_userId := session_userId w;
     session_user := session_user w;
     user_table := user_table w;
     lessonPlan_table := lessonPlan_table w;
     stripe_subscriptions := stripe_subscriptions w;
     stripe_customers := stripe_customers w;
     clock := clock w;
     calls := l |}.

Definition record_call (c : Call) (w : World) : World :=
  with_calls (calls w ++ [c]) w.

Definition set_user_table (t : gmap string (option string)) (w : World) : World :=
  {| session_userId := session_userId w;
     session_user := session_user w;
     user_table := t;
     lessonPlan_table := lessonPlan_table w;
     stripe_subscriptions := stripe_subscriptions w;
     stripe_customers := stripe_customers w;
     clock := clock w;
     calls := calls w |}.

Definition set_stripe_customers (cs : list StripeCustomer) (w : World) : World :=
  {| session_userId := session_userId w;
     session_user := session_user w;
     user_table := user_table w;
     lessonPlan_table := lessonPlan_table w;
     stripe_subscriptions := stripe_subscriptions w;
     stripe_customers := cs;
     clock := clock w;
     calls := calls w |}.

(** Time passing outside the calls: the environment moves the clock. *)
Definition set_clock (t : Z) (w : World) : World :=
  {| session_userId := session_userId w;
     session_user := session_user w;
     user_table := user_table w;
     lessonPlan_table := lessonPlan_table w;
     stripe_subscriptions := stripe_subscriptions w;
     stripe_customers := stripe_customers w;
     clock := t;
     calls := calls w |}.

(* --------------------------------------------------------------------- *)
(* The external services                                                 *)
(* --------------------------------------------------------------------- *)

(** const { userId } = auth() *)
Definition auth : M (option string) :=
  fun w => (Ok (session_userId w), record_call Clerk_auth w).

(** await currentUser() *)
Definition currentUser : M (option ClerkUser) :=
  fun w => (Ok (session_user w), record_call Clerk_currentUser w).

(** await prisma.user.findUnique({ where: { id } }) *)
Definition prisma_user_findUnique (id : string) : M (option UserDB) :=
  fun w =>
    (Ok (match user_table w !! id with
         | Some c => Some {| db_id := id; stripe_customer_id := c |}
         | None => None
         end),
     record_call (Prisma_user_findUnique id) w).

(** await prisma.user.update({ where: { id }, data: { stripe_customer_id } });
    Prisma rejects when no row has that id. *)
Definition prisma_user_update (id customer : string) : M unit :=
  fun w =>
    let w' := record_call (Prisma_user_update id customer) w in
    match user_table w !! id with
    | Some _ => (Ok tt, set_user_table (<[id := Some customer]> (user_table w)) w')
    | None => (Throw "Record to update not found.", w')
    end.

(** The rows selected by
      where: { userId: uid, createdAt: { gte, lte } } *)
Definition in_window (uid : string) (gte lte : Z) (p : LessonPlan) : bool :=
  String.eqb (userId p) uid && (gte <=? createdAt p) && (createdAt p <=? lte).

(** await prisma.lessonPlan.count({ where: ... }) *)
Definition lessonPlan_count (rows : list LessonPlan) (uid : string) (gte lte : Z) : Z :=
  Z.of_nat (length (List.filter (in_window uid gte lte) rows)).

Definition prisma_lessonPlan_count (uid : string) (gte lte : Z) : M Z :=
  fun w =>
    (Ok (lessonPlan_count (lessonPlan_table w) uid gte lte),
     record_call (Prisma_lessonPlan_count uid gte lte) w).

(** (await stripe.subscriptions.list({ customer })).data *)
Definition stripe_subscriptions_list (customer : string) : M (list StripeSubscription) :=
  fun w =>
    (Ok (default [] (stripe_subscriptions w !! customer)),
     record_call (Stripe_subscriptions_list customer) w).

(** await stripe.customers.create({ email, name }) *)
Definition stripe_customers_create `{Host} (email name : string) : M StripeCustomer :=
  fun w =>
    let c := {| customer_id := newCustomerId (length (stripe_customers w));
                customer_email := email;
                customer_name := name |} in
    (Ok c,
     set_stripe_customers (stripe_customers w ++ [c])
       (record_call (Stripe_customers_create email name) w)).

(** new Date(): reads the clock, contacts nobody. *)
Definition new_Date : M Z := fun w => (Ok (clock w), w).

(* --------------------------------------------------------------------- *)
(* JavaScript conversions used by the source                             *)
(* --------------------------------------------------------------------- *)

(** ToBoolean on a string | null: null and the empty string are falsy.
    [truthy s] is the string itself when the test passes. *)
Definition truthy (s : option string) : option string :=
  match s with
  | Some s => if String.eqb s "" then None else Some s
  | None => None
  end.

(** Optional chaining, dbUser?.stripe_customer_id *)
Definition opt_stripe_customer_id (u : option UserDB) : option string :=
  match u with
  | Some u => stripe_customer_id u
  | None => None
  end.

(** A string | null inside a template literal. *)
Definition template_string (s : option string) : string :=
  match s with
  | Some s => s
  | None => "null"
  end.

(** An integer inside a template literal. *)
Definition template_number (n : Z) : string :=
  NilZero.string_of_int (Z.to_int n).

(* --------------------------------------------------------------------- *)
(* stripe.ts                                                             *)
(* --------------------------------------------------------------------- *)

(** stripe.ts:15-50 *)
Definition hasSubscription : M SubscriptionInfo :=
  userId <- auth ;;
  user <- currentUser ;;
  match truthy userId, user with
  | Some userId, Some _ =>
      userDB <- prisma_user_findUnique userId ;;
      match truthy (opt_stripe_customer_id userDB) with
      | None => ret {| isSubscribed := false; subscriptionData := [] |}
      | Some customer =>
          subscriptions <- stripe_subscriptions_list customer ;;
          ret {| isSubscribed := (Z.of_nat (length subscriptions) >? 0);
                 subscriptionData := subscriptions |}
      end
  | _, _ => ret {| isSubscribed := false; subscriptionData := [] |}
  end.

(** stripe.ts:52-78 *)
Definition createCustomerIfNull `{Host} : M string :=
  user <- currentUser ;;
  match user with
  | None => throw "User not authenticated"
  | Some user =>
      dbUser <- prisma_user_findUnique (clerk_id user) ;;
      match truthy (opt_stripe_customer_id dbUser) with
      | Some customer => ret customer
      | None =>
          match emailAddresses user with
          | [] => throw "Cannot read properties of undefined (reading 'emailAddress')"
          | e :: _ =>
              customer <- stripe_customers_create (emailAddress e)
                (template_string (firstName user) +:+ " " +:+ template_string (lastName user)) ;;
              _ <- prisma_user_update (clerk_id user) (customer_id customer) ;;
              ret (customer_id customer)
          end
      end
  end.

(** stripe.ts:123-208 *)
Definition notLoggedIn : EligibilityDecision :=
  {| isEligible := false;
     message := "You must be logged in to see how many lesson plans you can make.";
     remainingGenerations := 0 |}.

Definition checkLessonPlanCreationEligibility `{Host} : M EligibilityDecision :=
  userId <- auth ;;
  user <- currentUser ;;
  match truthy userId, user with
  | Some userId, Some _ =>
      userDB <- prisma_user_findUnique userId ;;
      match userDB with
      | None => ret notLoggedIn
      | Some userDB =>
          stripeSubscriptionData <- hasSubscription ;;
          currentDate <- new_Date ;;
          let '(isSubscribed, periodStart, periodEnd) :=
            match subscriptionData stripeSubscriptionData with
            | subscription :: _ =>
                (String.eqb (status subscription) "active",
                 current_period_start subscription * 1000,
                 current_period_end subscription * 1000)
            | [] =>
                (false, currentDate - 30 * 24 * 60 * 1000, currentDate)
            end in
          lessonPlanGenerationCount <-
            prisma_lessonPlan_count (db_id userDB) periodStart periodEnd ;;
          let limit := if isSubscribed : bool then 30 else 10 in
          let remainingGenerations := Z.max 0 (limit - lessonPlanGenerationCount) in
          if remainingGenerations =? 0 then
            let resetDate :=
              if isSubscribed
              then toLocaleDateString periodEnd
              else toLocaleDateString (currentDate + 24 + 60 * 60 * 1000) in
            ret {| isEligible := false;
                   message :=
                     if isSubscribed
                     then "You have reached the maximum number of lesson plans (30) for this subscription period. Reset Date: " +:+ resetDate
                     else "You have reached the maximum number of lesson plan generations (10) for the free tier. You can generate more starting " +:+ resetDate;
                   remainingGenerations := 0 |}
          else
            ret {| isEligible := true;
                   message :=
                     "You have " +:+ template_number remainingGenerations
                     +:+ " lesson plan generation"
                     +:+ (if negb (remainingGenerations =? 1) then "s" else "")
                     +:+ " remaining for this "
                     +:+ (if isSubscribed then "billing cycle" else "month");
                   remainingGenerations := remainingGenerations |}
      end
  | _, _ => ret notLoggedIn
  end.

(* --------------------------------------------------------------------- *)
(* checkLessonPlanCreationEligibility, in two halves                     *)
(* --------------------------------------------------------------------- *)

(* The two pure stretches of the function, cut out so that the run can
   be described by an equation (check_resolved below). *)

(** stripe.ts:158-170 as a function of what has been read so far:
    (isSubscribed, periodStart, periodEnd). *)
Definition period_of (subscriptionData : list StripeSubscription)
    (currentDate : Z) : bool * Z * Z :=
  match subscriptionData with
  | subscription :: _ =>
      (String.eqb (status subscription) "active",
       current_period_start subscription * 1000,
       current_period_end subscription * 1000)
  | [] => (false, currentDate - 30 * 24 * 60 * 1000, currentDate)
  end.

(** stripe.ts:182-207 as a function of what has been read so far. *)
Definition decision_of `{Host} (isSubscribed : bool)
    (periodEnd currentDate lessonPlanGenerationCount : Z) : EligibilityDecision :=
  let limit := if isSubscribed then 30 else 10 in
  let remainingGenerations := Z.max 0 (limit - lessonPlanGenerationCount) in
  if remainingGenerations =? 0 then
    let resetDate :=
      if isSubscribed
      then toLocaleDateString periodEnd
      else toLocaleDateString (currentDate + 24 + 60 * 60 * 1000) in
    {| isEligible := false;
       message :=
         if isSubscribed
         then "You have reached the maximum number of lesson plans (30) for this subscription period. Reset Date: " +:+ resetDate
         else "You have reached the maximum number of lesson plan generations (10) for the free tier. You can generate more starting " +:+ resetDate;
       remainingGenerations := 0 |}
  else
    {| isEligible := true;
       message :=
         "You have " +:+ template_number remainingGenerations
         +:+ " lesson plan generation"
         +:+ (if negb (remainingGenerations =? 1) then "s" else "")
         +:+ " remaining for this "
         +:+ (if isSubscribed then "billing cycle" else "month");
       remainingGenerations := remainingGenerations |}.

(** Whether the first subscription of a list, if any, is "active". *)
Definition first_active (subs : list StripeSubscription) : bool :=
  match subs with
  | s :: _ => String.eqb (status s) "active"
  | [] => false
  end.

(* --------------------------------------------------------------------- *)
(* Kinds of calls                                                        *)
(* --------------------------------------------------------------------- *)

(** The calls that reach the usage store and the payment provider. *)
Definition is_usage_query (c : Call) : bool :=
  match c with
  | Prisma_lessonPlan_count _ _ _ => true
  | _ => false
  end.

Definition is_stripe_call (c : Call) : bool :=
  match c with
  | Stripe_subscriptions_list _ | Stripe_customers_create _ _ => true
  | _ => false
  end.

Definition is_write (c : Call) : bool :=
  match c with
  | Prisma_user_update _ _ | Stripe_customers_create _ _ => true
  | _ => false
  end.

(* --------------------------------------------------------------------- *)
(* A concrete host: locale en-US, time zone UTC                          *)
(* --------------------------------------------------------------------- *)

(** Day number since 1970-01-01 to (year, month, day) in the proleptic
    Gregorian calendar, by 400-year eras starting on 1 March. *)
Definition civil_from_days (days : Z) : Z * Z * Z :=
  let z := days + 719468 in
  let era := z / 146097 in
  let doe := z - era * 146097 in
  let yoe := (doe - doe / 1460 + doe / 36524 - doe / 146096) / 365 in
  let doy := doe - (365 * yoe + yoe / 4 - yoe / 100) in
  let mp := (5 * doy + 2) / 153 in
  let d := doy - (153 * mp + 2) / 5 + 1 in
  let m := if mp <? 10 then mp + 3 else mp - 9 in
  let y := yoe + era * 400 in
  (if m <=? 2 then y + 1 else y, m, d).

(** toLocaleDateString() as en-US prints it in UTC: M/D/YYYY. *)
Definition en_US_UTC_date (t : Z) : string :=
  let '(y, m, d) := civil_from_days (t / 86400000) in
  template_number m +:+ "/" +:+ template_number d +:+ "/" +:+ template_number y.

Definition cus_id (n : nat) : string :=
  "cus_" +:+ template_number (Z.of_nat n).

#[export] Instance en_US_UTC : Host :=
  {| toLocaleDateString := en_US_UTC_date;
     newCustomerId := cus_id |}.

(* --------------------------------------------------------------------- *)
(* Sample worlds                                                         *)
(* --------------------------------------------------------------------- *)

Module Sample.

Definition clerk (id : string) : ClerkUser :=
  {| clerk_id := id; firstName := Some "Ada"; lastName := None;
     emailAddresses := [ {| emailAddress := "ada@example.com" |} ] |}.

(** 2023-11-14T22:13:20Z to 2023-12-14T22:13:20Z *)
Definition sub (st : string) : StripeSubscription :=
  {| status := st;
     current_period_start := 1700000000;
     current_period_end := 1702592000;
     created := 1690000000 |}.

Definition users : gmap string (option string) :=
  {[ "user_free" := None;
     "user_paid" := Some "cus_paid";
     "user_gone" := Some "cus_gone" ]}.

Definition subs : gmap string (list StripeSubscription) :=
  {[ "cus_paid" := [sub "active"];
     "cus_gone" := [sub "canceled"] ]}.

Definition plans (uid : string) (t : Z) (n : nat) : list LessonPlan :=
  replicate n {| userId := uid; createdAt := t |}.

(** [uid] is signed in at time [now]; prisma.lessonPlan holds [rows]. *)
Definition world (uid : option string) (rows : list LessonPlan) (now : Z) : World :=
  {| session_userId := uid;
     session_user := clerk <$> uid;
     user_table := users;
     lessonPlan_table := rows;
     stripe_subscriptions := subs;
     stripe_customers := [];
     clock := now;
     calls := [] |}.

End Sample.

(* --------------------------------------------------------------------- *)
(* What happens to the data between two calls                            *)
(* --------------------------------------------------------------------- *)

(** Rows come and go in prisma.lessonPlan outside stripe.ts. *)
Definition set_lessonPlan_table (rows : list LessonPlan) (w : World) : World :=
  {| session_userId := session_userId w;
     session_user := session_user w;
     user_table := user_table w;
     lessonPlan_table := rows;
     stripe_subscriptions := stripe_subscriptions w;
     stripe_customers := stripe_customers w;
     clock := clock w;
     calls := calls w |}.

(** Subscriptions are made and ended at Stripe, outside stripe.ts. *)
Definition set_stripe_subscriptions
    (m : gmap string (list StripeSubscription)) (w : World) : World :=
  {| session_userId := session_userId w;
     session_user := session_user w;
     user_table := user_table w;
     lessonPlan_table := lessonPlan_table w;
     stripe_subscriptions := m;
     stripe_customers := stripe_customers w;
     clock := clock w;
     calls := calls w |}.

(* --------------------------------------------------------------------- *)
(* stripe.ts: the two link generators                                    *)
(* --------------------------------------------------------------------- *)

Module Links.

(** line_items: [{ price: process.env.STRIPE_PRICE_ID, quantity: 1 }] *)
Record LineItem := {
  price : option string;
  quantity : Z
}.

(** The two requests stripe.ts:80-121 sends, with their parameters. *)
Inductive Request :=
| BillingPortal_sessions_create (customer return_url : string)
| Checkout_sessions_create (success_url customer : string)
    (line_items : list LineItem) (mode : string).

(** What these two functions run against: the two environment variables
    they read, Stripe's answer to each request (the url of the session
    it creates, or the message of the Error it throws), the requests
    sent so far and the lines written with console.error. *)
Record Server := {
  NEXT_PUBLIC_APP_URL : option string;
  STRIPE_PRICE_ID : option string;
  portal_answer : string -> string -> Result string;
  checkout_answer : string -> string -> list LineItem -> string ->
                    Result (option string);
  requests : list Request;
  console : list (string * string)
}.

Definition sent (r : Request) (s : Server) : Server :=
  {| NEXT_PUBLIC_APP_URL := NEXT_PUBLIC_APP_URL s;
     STRIPE_PRICE_ID := STRIPE_PRICE_ID s;
     portal_answer := portal_answer s;
     checkout_answer := checkout_answer s;
     requests := requests s ++ [r];
     console := console s |}.

(** console.error(label, error) *)
Definition console_error (label error : string) (s : Server) : Server :=
  {| NEXT_PUBLIC_APP_URL := NEXT_PUBLIC_APP_URL s;
     STRIPE_PRICE_ID := STRIPE_PRICE_ID s;
     portal_answer := portal_answer s;
     checkout_answer := checkout_answer s;
     requests := requests s;
     console := console s ++ [(label, error)] |}.

(** process.env.X inside a template literal. *)
Definition template_env (v : option string) : string :=
  match v with
  | Some v => v
  | None => "undefined"
  end.

(** (await stripe.billingPortal.sessions.create({...})).url *)
Definition stripe_billingPortal_sessions_create (customer return_url : string)
    (s : Server) : Result string * Server :=
  (portal_answer s customer return_url,
   sent (BillingPortal_sessions_create customer return_url) s).

(** (await stripe.checkout.sessions.create({...})).url *)
Definition stripe_checkout_sessions_create (success_url customer : string)
    (line_items : list LineItem) (mode : string)
    (s : Server) : Result (option string) * Server :=
  (checkout_answer s success_url customer line_items mode,
   sent (Checkout_sessions_create success_url customer line_items mode) s).

(** stripe.ts:80-96 *)
Definition generateCustomerPortalLink (customerId : option string)
    (s : Server) : Result string * Server :=
  match truthy customerId with
  | None => (Throw "Customer ID is required to generate portal link", s)
  | Some customerId =>
      match stripe_billingPortal_sessions_create customerId
              (template_env (NEXT_PUBLIC_APP_URL s) +:+ "/dashboard") s with
      | (Ok url, s') => (Ok url, s')
      | (Throw error, s') =>
          (Throw ("Failed to generate portal link: " +:+ error),
           console_error "Error generating customer portal link:" error s')
      end
  end.

(** stripe.ts:98-121 *)
Definition createCheckoutLink (customerId : option string)
    (s : Server) : Result (option string) * Server :=
  match truthy customerId with
  | None => (Throw "Customer ID is required to create checkout link", s)
  | Some customerId =>
      match stripe_checkout_sessions_create
              (template_env (NEXT_PUBLIC_APP_URL s) +:+ "/dashboard/course")
              customerId
              [ {| price := STRIPE_PRICE_ID s; quantity := 1 |} ]
              "subscription" s with
      | (Ok url, s') => (Ok url, s')
      | (Throw error, s') =>
          (Throw ("Failed to create checkout link: " +:+ error),
           console_error "Error creating checkout link:" error s')
      end
  end.

(** A server whose Stripe account knows one customer, "cus_paid", and
    refuses everybody else. *)
Definition sample : Server :=
  {| NEXT_PUBLIC_APP_URL := Some "https://corely.example";
     STRIPE_PRICE_ID := Some "price_1";
     portal_answer := fun customer _ =>
       if String.eqb customer "cus_paid"
       then Ok "https://billing.stripe.example/p/session/1"
       else Throw ("No such customer: '" +:+ customer +:+ "'");
     checkout_answer := fun _ customer _ _ =>
       if String.eqb customer "cus_paid"
       then Ok (Some "https://checkout.stripe.example/c/pay/1")
       else Throw ("No such customer: '" +:+ customer +:+ "'");
     requests := [];
     console := [] |}.

End Links.

(* --------------------------------------------------------------------- *)
(* More sample worlds                                                    *)
(* --------------------------------------------------------------------- *)

Module Scenario.

(** "user_free" is signed in; no lesson plans yet; Stripe knows nobody. *)
Definition free_user : World := Sample.world (Some "user_free") [] 1701000001000.

(** Somebody is signed in whom prisma.user does not know. *)
Definition stranger : World := Sample.world (Some "nobody") [] 1701000001000.

Definition signed_out : World := Sample.world None [] 1701000001000.

(** "user_free" signed in through an account without e-mail address. *)
Definition no_email : World :=
  {| session_userId := Some "user_free";
     session_user :=
       Some {| clerk_id := "user_free"; firstName := None; lastName := None;
               emailAddresses := [] |};
     user_table := Sample.users;
     lessonPlan_table := [];
     stripe_subscriptions := Sample.subs;
     stripe_customers := [];
     clock := 1701000001000;
     calls := [] |}.

(** "user_paid" with four plans inside the subscription period. *)
Definition paid_user : World :=
  Sample.world (Some "user_paid")
    (Sample.plans "user_paid" 1701000000000 4) 1701000001000.

(** Stripe holding a second, canceled, subscription behind the active
    one of "cus_paid". *)
Definition two_subscriptions : gmap string (list StripeSubscription) :=
  {[ "cus_paid" := [Sample.sub "active"; Sample.sub "canceled"] ]}.

End Scenario.

(* ===================================================================== *)
(* Properties                                                            *)
(* ===================================================================== *)

Example en_US_UTC_leap_day : en_US_UTC_date 1709251199999 = "2/29/2024".
Proof. reflexivity. Qed.

Example en_US_UTC_after_leap_day : en_US_UTC_date 1709251200000 = "3/1/2024".
Proof. reflexivity. Qed.

Example en_US_UTC_before_epoch : en_US_UTC_date (-1) = "12/31/1969".
Proof. reflexivity. Qed.

(* --------------------------------------------------------------------- *)
(* The log and the frame                                                 *)
(* --------------------------------------------------------------------- *)

Lemma with_calls_id w : with_calls (calls w) w = w.
Proof. by destruct w. Qed.

Lemma with_calls_twice l l' w : with_calls l (with_calls l' w) = with_calls l w.
Proof. reflexivity. Qed.

Lemma calls_with_calls l w : calls (with_calls l w) = l.
Proof. reflexivity. Qed.

Lemma record_call_with_calls c l w :
  record_call c (with_calls l w) = with_calls (l ++ [c]) w.
Proof. reflexivity. Qed.

Lemma set_clock_with_calls t l w :
  set_clock t (with_calls l w) = with_calls l (set_clock t w).
Proof. reflexivity. Qed.

Lemma set_clock_id w : set_clock (clock w) w = w.
Proof. by destruct w. Qed.

Lemma truthy_Some s t : truthy s = Some t -> s = Some t /\ t <> "".
Proof.
  destruct s as [s|]; simpl; [|done].
  destruct (String.eqb_spec s ""); [done|].
  intros [= ->]. done.
Qed.

Lemma truthy_nonempty t : t <> "" -> truthy (Some t) = Some t.
Proof.
  intros Hne. simpl. by destruct (String.eqb_spec t "").
Qed.

(* --------------------------------------------------------------------- *)
(* hasSubscription                                                       *)
(* --------------------------------------------------------------------- *)

(** Bring the log of a world that went through several calls to the
    form [l ++ [c1; ...; cn]]. *)
Ltac log_norm :=
  unfold record_call;
  repeat (rewrite ?calls_with_calls, ?with_calls_twice);
  rewrite <- ?(assoc_L (++)); cbn [app].

(** hasSubscription never throws, changes nothing but the log, never
    asks for a usage count, and its answer does not depend on what the
    log held before. *)
Lemma hasSubscription_run w :
  exists info cs,
    (forall l,
      hasSubscription (with_calls l w) = (Ok info, with_calls (l ++ cs) w)) /\
    Forall (fun c => is_usage_query c = false) cs.
Proof.
  unfold hasSubscription, bind, auth, currentUser, prisma_user_findUnique,
    stripe_subscriptions_list, ret.
  cbn.
  destruct (truthy (session_userId w)) as [uid|]; cbn.
  - destruct (session_user w) as [u|]; cbn.
    + destruct (truthy (opt_stripe_customer_id _)) as [customer|]; cbn.
      * eexists _, _. split; [intros l; log_norm; reflexivity|].
        by repeat constructor.
      * eexists _, _. split; [intros l; log_norm; reflexivity|].
        by repeat constructor.
    + eexists _, _. split; [intros l; log_norm; reflexivity|].
      by repeat constructor.
  - exists {| isSubscribed := false; subscriptionData := [] |},
      [Clerk_auth; Clerk_currentUser].
    split; [|by repeat constructor].
    intros l. destruct (session_user w); log_norm; reflexivity.
Qed.

Lemma hasSubscription_answer w info :
  (hasSubscription w).1 = Ok info ->
  exists cs,
    (forall l,
      hasSubscription (with_calls l w) = (Ok info, with_calls (l ++ cs) w)) /\
    Forall (fun c => is_usage_query c = false) cs.
Proof.
  intros Hinfo.
  destruct (hasSubscription_run w) as (info' & cs & Hrun & Hcs).
  pose proof (Hrun (calls w)) as Hw.
  rewrite with_calls_id in Hw. rewrite Hw in Hinfo.
  injection Hinfo as ->. by exists cs.
Qed.

(** The clock is not an input of hasSubscription. *)
Lemma hasSubscription_clock t w :
  (hasSubscription (set_clock t w)).1 = (hasSubscription w).1.
Proof.
  unfold hasSubscription, bind, auth, currentUser, prisma_user_findUnique,
    stripe_subscriptions_list, ret.
  cbn.
  destruct (truthy (session_userId w)); cbn; [|by destruct (session_user w)].
  destruct (session_user w); cbn; [|done].
  by destruct (truthy (opt_stripe_customer_id _)).
Qed.

(** For a signed-in user with a row in prisma.user, the answer is read
    off the row's customer id. *)
Lemma hasSubscription_signed_in w uid u c :
  truthy (session_userId w) = Some uid ->
  session_user w = Some u ->
  user_table w !! uid = Some c ->
  hasSubscription w =
    match truthy c with
    | Some customer =>
        let subscriptions := default [] (stripe_subscriptions w !! customer) in
        (Ok {| isSubscribed := (Z.of_nat (length subscriptions) >? 0);
               subscriptionData := subscriptions |},
         with_calls (calls w ++ [Clerk_auth; Clerk_currentUser;
                                 Prisma_user_findUnique uid;
                                 Stripe_subscriptions_list customer]) w)
    | None =>
        (Ok {| isSubscribed := false; subscriptionData := [] |},
         with_calls (calls w ++ [Clerk_auth; Clerk_currentUser;
                                 Prisma_user_findUnique uid]) w)
    end.
Proof.
  intros Hid Hu Hrow.
  unfold hasSubscription, bind, auth, currentUser, prisma_user_findUnique,
    stripe_subscriptions_list, ret.
  cbn. rewrite Hid, Hu. cbn. rewrite Hrow. cbn.
  destruct (truthy c) as [customer|]; cbn; log_norm; reflexivity.
Qed.

(* --------------------------------------------------------------------- *)
(* checkLessonPlanCreationEligibility                                    *)
(* --------------------------------------------------------------------- *)

Section Evaluator.
Context `{Host}.

(** The whole run for a signed-in user with a row in prisma.user: the
    function reads the session, the row, the subscriptions (through
    hasSubscription, whose calls are [cs]) and the clock, asks for one
    count, and answers [decision_of]. *)
Lemma check_resolved w uid u c info :
  truthy (session_userId w) = Some uid ->
  session_user w = Some u ->
  user_table w !! uid = Some c ->
  (hasSubscription w).1 = Ok info ->
  exists pre,
    Forall (fun c => is_usage_query c = false) pre /\
    forall l,
    checkLessonPlanCreationEligibility (with_calls l w) =
      let '(isSubscribed, periodStart, periodEnd) :=
        period_of (subscriptionData info) (clock w) in
      (Ok (decision_of isSubscribed periodEnd (clock w)
             (lessonPlan_count (lessonPlan_table w) uid periodStart periodEnd)),
       with_calls (l ++ pre ++
                   [Prisma_lessonPlan_count uid periodStart periodEnd]) w).
Proof.
  intros Hid Hu Hrow Hinfo.
  destruct (hasSubscription_answer w info Hinfo) as (cs & Hrun & Hcs).
  exists ([Clerk_auth; Clerk_currentUser; Prisma_user_findUnique uid] ++ cs)%list.
  split.
  { apply Forall_app. split; [by repeat constructor | done]. }
  intros l.
  unfold checkLessonPlanCreationEligibility, bind at 1 2 3.
  unfold auth, currentUser, prisma_user_findUnique.
  cbn. rewrite Hid, Hu. cbn. rewrite Hrow.
  unfold bind at 1. log_norm. rewrite Hrun.
  unfold bind at 1, new_Date. cbn [clock with_calls].
  unfold period_of.
  destruct (subscriptionData info) as [|subscription rest];
    unfold bind, prisma_lessonPlan_count, decision_of, ret;
    cbn [db_id lessonPlan_table with_calls];
    log_norm;
    destruct (Z.max 0 _ =? 0); reflexivity.
Qed.

(** The run when the session names nobody, or somebody without a row in
    prisma.user: the two early returns of stripe.ts:130-152. *)
Lemma check_unresolved w :
  (truthy (session_userId w) = None \/ session_user w = None \/
   exists uid, truthy (session_userId w) = Some uid /\
               user_table w !! uid = None) ->
  exists cs,
    Forall (fun c => is_usage_query c = false /\ is_stripe_call c = false) cs /\
    forall l,
      checkLessonPlanCreationEligibility (with_calls l w) =
        (Ok notLoggedIn, with_calls (l ++ cs) w).
Proof.
  intros Hno.
  unfold checkLessonPlanCreationEligibility, bind, auth, currentUser,
    prisma_user_findUnique, ret.
  cbn.
  destruct (truthy (session_userId w)) as [uid|] eqn:Hid.
  - destruct (session_user w) as [u|] eqn:Hu; cbn.
    + destruct Hno as [[=] | [[=] | (uid' & [= <-] & Hrow)]].
      rewrite Hrow.
      exists [Clerk_auth; Clerk_currentUser; Prisma_user_findUnique uid].
      split; [by repeat constructor|].
      intros l. log_norm. reflexivity.
    + exists [Clerk_auth; Clerk_currentUser].
      split; [by repeat constructor|].
      intros l. log_norm. reflexivity.
  - exists [Clerk_auth; Clerk_currentUser].
    split; [by repeat constructor|].
    intros l. destruct (session_user w); log_norm; reflexivity.
Qed.

(** Every session is of one kind or the other. *)
Lemma resolved_or_not w :
  (exists uid u c, truthy (session_userId w) = Some uid /\
                   session_user w = Some u /\
                   user_table w !! uid = Some c) \/
  (truthy (session_userId w) = None \/ session_user w = None \/
   exists uid, truthy (session_userId w) = Some uid /\
               user_table w !! uid = None).
Proof.
  destruct (truthy (session_userId w)) as [uid|]; [|by right; left].
  destruct (session_user w) as [u|]; [|by right; right; left].
  destruct (user_table w !! uid) as [c|] eqn:Hrow.
  - left. by exists uid, u, c.
  - right. right. right. by exists uid.
Qed.

(** The pure half: bounds on what [decision_of] answers. *)
Lemma decision_of_remaining isSubscribed periodEnd currentDate count :
  remainingGenerations (decision_of isSubscribed periodEnd currentDate count) =
    Z.max 0 ((if isSubscribed then 30 else 10) - count).
Proof.
  unfold decision_of.
  destruct (Z.max 0 _ =? 0) eqn:E; cbn; [|done].
  apply Z.eqb_eq in E. by rewrite E.
Qed.

Lemma decision_of_eligible isSubscribed periodEnd currentDate count :
  isEligible (decision_of isSubscribed periodEnd currentDate count) =
    (0 <? remainingGenerations
            (decision_of isSubscribed periodEnd currentDate count)).
Proof.
  unfold decision_of.
  destruct (Z.max 0 _ =? 0) eqn:E; cbn; [done|].
  apply Z.eqb_neq in E. symmetry. apply Z.ltb_lt. lia.
Qed.

Lemma lessonPlan_count_nonneg rows uid gte lte :
  0 <= lessonPlan_count rows uid gte lte.
Proof. unfold lessonPlan_count. lia. Qed.

End Evaluator.

(* --------------------------------------------------------------------- *)
(* The quota                                                             *)
(* --------------------------------------------------------------------- *)

Lemma period_of_first_active subs now :
  (period_of subs now).1.1 = first_active subs.
Proof. by destruct subs. Qed.

Section Quota.
Context `{Host}.

(** C1.  For a signed-in user with a row in prisma.user, the function
    returns a decision, having asked the usage store for exactly one
    count, and that count is over the billing window: the period of the
    first subscription hasSubscription returned, in milliseconds, or,
    without any subscription, the stretch of 30 * 24 * 60 * 1000
    milliseconds that ends at the current time.  The limit is 30 when
    that first subscription is "active" and 10 otherwise;
    remainingGenerations is max(0, limit - count), count being the
    number of the user's lesson plans in the billing window, and
    isEligible says whether it is positive.  In particular a user on
    the free limit with 5 lesson plans in the billing window gets
    remainingGenerations = 5 and isEligible = true. *)
Theorem limit_and_remaining w uid u c info :
  truthy (session_userId w) = Some uid ->
  session_user w = Some u ->
  user_table w !! uid = Some c ->
  (hasSubscription w).1 = Ok info ->
  let periodStart :=
    match subscriptionData info with
    | subscription :: _ => current_period_start subscription * 1000
    | [] => clock w - 30 * 24 * 60 * 1000
    end in
  let periodEnd :=
    match subscriptionData info with
    | subscription :: _ => current_period_end subscription * 1000
    | [] => clock w
    end in
  let count := lessonPlan_count (lessonPlan_table w) uid periodStart periodEnd in
  let limit := if first_active (subscriptionData info) then 30 else 10 in
  count =
    Z.of_nat (length (filter (fun p => userId p = uid /\
                                periodStart <= createdAt p <= periodEnd)
                        (lessonPlan_table w))) /\
  exists d pre,
    checkLessonPlanCreationEligibility w =
      (Ok d, with_calls (calls w ++ pre ++
               [Prisma_lessonPlan_count uid periodStart periodEnd]) w) /\
    Forall (fun c => is_usage_query c = false) pre /\
    remainingGenerations d = Z.max 0 (limit - count) /\
    isEligible d = (remainingGenerations d >? 0) /\
    (first_active (subscriptionData info) = false -> count = 5 ->
     remainingGenerations d = 5 /\ isEligible d = true).
Proof.
  intros Hid Hu Hrow Hinfo periodStart periodEnd count limit.
  split.
  { unfold count, lessonPlan_count. f_equal.
    induction (lessonPlan_table w) as [|p rows IH]; [done|].
    rewrite filter_cons. cbn [List.filter].
    destruct (in_window uid periodStart periodEnd p) eqn:E.
    - rewrite decide_True; [cbn [length]; by rewrite IH|].
      unfold in_window in E.
      rewrite !andb_true_iff, String.eqb_eq, !Z.leb_le in E. tauto.
    - rewrite decide_False; [done|].
      intros (Hp & Hge & Hle). unfold in_window in E.
      apply String.eqb_eq in Hp. apply Z.leb_le in Hge, Hle.
      by rewrite Hp, Hge, Hle in E. }
  destruct (check_resolved w uid u c info Hid Hu Hrow Hinfo)
    as (pre & Hpre & Hrun).
  specialize (Hrun (calls w)). rewrite with_calls_id in Hrun.
  assert (Hperiod : period_of (subscriptionData info) (clock w) =
                    (first_active (subscriptionData info),
                     periodStart, periodEnd)).
  { subst periodStart periodEnd. by destruct (subscriptionData info). }
  rewrite Hperiod in Hrun.
  eexists _, pre. split; [exact Hrun|]. split; [exact Hpre|].
  rewrite decision_of_eligible, decision_of_remaining, Z.gtb_ltb.
  fold count limit.
  split; [reflexivity|]. split; [reflexivity|].
  intros Hfree Hfive. subst limit. rewrite Hfree, Hfive. split; reflexivity.
Qed.

(** C2.  When the session names nobody (no userId, an empty one, or no
    current user), or names somebody without a row in prisma.user, the
    function returns -- it does not throw -- the logged-out decision:
    not eligible, the log-in message, zero remaining.  It changes
    nothing but the log, and the calls it adds reach neither Stripe nor
    the lessonPlan table. *)
Theorem not_signed_in_decision w :
  (truthy (session_userId w) = None \/ session_user w = None \/
   exists uid, truthy (session_userId w) = Some uid /\
               user_table w !! uid = None) ->
  exists cs,
    checkLessonPlanCreationEligibility w =
      (Ok {| isEligible := false;
             message := "You must be logged in to see how many lesson plans you can make.";
             remainingGenerations := 0 |},
       with_calls (calls w ++ cs) w) /\
    Forall (fun c => is_usage_query c = false /\ is_stripe_call c = false) cs.
Proof.
  intros Hno.
  destruct (check_unresolved w Hno) as (cs & Hcs & Hrun).
  exists cs. split; [|exact Hcs].
  specialize (Hrun (calls w)). by rewrite with_calls_id in Hrun.
Qed.

(** C3.  When the first subscription hasSubscription returned, P, has a
    status other than "active", the one usage count the function asks
    for is over [P.current_period_start * 1000, P.current_period_end *
    1000] (the period, in milliseconds), and remainingGenerations is
    max(0, 10 - count): the free limit, not 30. *)
Theorem inactive_subscription_window w uid u c info P rest :
  truthy (session_userId w) = Some uid ->
  session_user w = Some u ->
  user_table w !! uid = Some c ->
  (hasSubscription w).1 = Ok info ->
  subscriptionData info = P :: rest ->
  status P <> "active" ->
  let periodStart := current_period_start P * 1000 in
  let periodEnd := current_period_end P * 1000 in
  let count := lessonPlan_count (lessonPlan_table w) uid periodStart periodEnd in
  exists d pre,
    checkLessonPlanCreationEligibility w =
      (Ok d, with_calls (calls w ++ pre ++
               [Prisma_lessonPlan_count uid periodStart periodEnd]) w) /\
    Forall (fun c => is_usage_query c = false) pre /\
    remainingGenerations d = Z.max 0 (10 - count) /\
    isEligible d = (0 <? 10 - count).
Proof.
  intros Hid Hu Hrow Hinfo Hsubs Hst periodStart periodEnd count.
  destruct (check_resolved w uid u c info Hid Hu Hrow Hinfo)
    as (pre & Hpre & Hrun).
  specialize (Hrun (calls w)). rewrite with_calls_id, Hsubs in Hrun.
  cbn [period_of] in Hrun.
  apply String.eqb_neq in Hst. rewrite Hst in Hrun.
  eexists _, pre. split; [exact Hrun|]. split; [exact Hpre|].
  rewrite decision_of_eligible, decision_of_remaining.
  split; [reflexivity|].
  fold periodStart periodEnd count.
  destruct (Z.ltb_spec 0 (10 - count)), (Z.ltb_spec 0 (Z.max 0 (10 - count)));
    lia.
Qed.

(** C4.  When hasSubscription returned no subscription, the function
    goes on with isSubscribed = false, and the one usage count it asks
    for is over the window that ends at the current time and starts
    30 * 24 * 60 = 43200 seconds, twelve hours, before it. *)
Theorem no_subscription_window w uid u c info :
  truthy (session_userId w) = Some uid ->
  session_user w = Some u ->
  user_table w !! uid = Some c ->
  (hasSubscription w).1 = Ok info ->
  subscriptionData info = [] ->
  let seconds := 30 * 24 * 60 in
  let periodStart := clock w - seconds * 1000 in
  let periodEnd := clock w in
  let count := lessonPlan_count (lessonPlan_table w) uid periodStart periodEnd in
  seconds = 43200 /\ seconds = 12 * 60 * 60 /\ seconds <> 30 * 24 * 60 * 60 /\
  exists pre,
    checkLessonPlanCreationEligibility w =
      (Ok (decision_of false periodEnd (clock w) count),
       with_calls (calls w ++ pre ++
         [Prisma_lessonPlan_count uid periodStart periodEnd]) w) /\
    Forall (fun c => is_usage_query c = false) pre /\
    remainingGenerations (decision_of false periodEnd (clock w) count) =
      Z.max 0 (10 - count).
Proof.
  intros Hid Hu Hrow Hinfo Hsubs seconds periodStart periodEnd count.
  do 3 (split; [done|]).
  destruct (check_resolved w uid u c info Hid Hu Hrow Hinfo)
    as (pre & Hpre & Hrun).
  specialize (Hrun (calls w)). rewrite with_calls_id, Hsubs in Hrun.
  cbn [period_of] in Hrun.
  exists pre. split; [exact Hrun|]. split; [exact Hpre|].
  by rewrite decision_of_remaining.
Qed.

(** C5, as the code has it.  For a user on the free limit (no first
    subscription, or one that is not "active") the function returns a
    decision, and when that decision has zero remaining generations its
    message ends with the date of the current time plus
    24 + 60 * 60 * 1000 milliseconds: 24 milliseconds and 3600 seconds,
    an hour and a fraction, not 24 hours. *)
Theorem free_tier_reset_date w uid u c info :
  truthy (session_userId w) = Some uid ->
  session_user w = Some u ->
  user_table w !! uid = Some c ->
  (hasSubscription w).1 = Ok info ->
  first_active (subscriptionData info) = false ->
  let reset := clock w + 24 + 60 * 60 * 1000 in
  reset = clock w + 24 + 3600 * 1000 /\
  reset <> clock w + 24 * 60 * 60 * 1000 /\
  exists d w',
    checkLessonPlanCreationEligibility w = (Ok d, w') /\
    (remainingGenerations d = 0 ->
     message d =
       "You have reached the maximum number of lesson plan generations (10) for the free tier. You can generate more starting "
       +:+ toLocaleDateString reset).
Proof.
  intros Hid Hu Hrow Hinfo Hfree reset.
  split; [unfold reset; lia|]. split; [unfold reset; lia|].
  destruct (check_resolved w uid u c info Hid Hu Hrow Hinfo)
    as (pre & Hpre & Hrun).
  specialize (Hrun (calls w)). rewrite with_calls_id in Hrun.
  pose proof (period_of_first_active (subscriptionData info) (clock w)) as Hact.
  destruct (period_of _ _) as [[isSub gte] lte]. cbn in Hact.
  rewrite Hfree in Hact. subst isSub.
  eexists _, _. split; [exact Hrun|].
  rewrite decision_of_remaining. intros Hzero.
  unfold decision_of. rewrite Hzero. reflexivity.
Qed.

(** The rows a count selects are those of the user whose createdAt lies
    between the two bounds, both included. *)
Lemma in_window_spec uid gte lte p :
  in_window uid gte lte p = true <->
  userId p = uid /\ gte <= createdAt p <= lte.
Proof.
  unfold in_window. rewrite !andb_true_iff, String.eqb_eq, !Z.leb_le. tauto.
Qed.

Lemma lessonPlan_count_filter rows uid gte lte :
  lessonPlan_count rows uid gte lte =
    Z.of_nat (length (filter (fun p => userId p = uid /\
                                       gte <= createdAt p <= lte) rows)).
Proof.
  unfold lessonPlan_count. f_equal.
  induction rows as [|p rows IH]; [done|].
  rewrite filter_cons. cbn [List.filter].
  destruct (in_window uid gte lte p) eqn:E.
  - apply in_window_spec in E. rewrite decide_True by done.
    cbn [length]. by rewrite IH.
  - rewrite decide_False; [done|].
    intros Hin. apply in_window_spec in Hin. congruence.
Qed.

(** C6.  The one usage count the function asks for is over
    [periodStart, periodEnd] as stripe.ts:158-170 sets them, with gte
    and lte: it is the number of the user's rows whose createdAt is at
    least periodStart and at most periodEnd.  When the first
    subscription is "active" and that count is 30, the decision is not
    eligible, has zero remaining generations, and its message ends with
    the date of current_period_end. *)
Theorem usage_window_inclusive w uid u c info :
  truthy (session_userId w) = Some uid ->
  session_user w = Some u ->
  user_table w !! uid = Some c ->
  (hasSubscription w).1 = Ok info ->
  exists d pre isSub periodStart periodEnd,
    period_of (subscriptionData info) (clock w) = (isSub, periodStart, periodEnd) /\
    checkLessonPlanCreationEligibility w =
      (Ok d, with_calls (calls w ++ pre ++
               [Prisma_lessonPlan_count uid periodStart periodEnd]) w) /\
    Forall (fun c => is_usage_query c = false) pre /\
    let count :=
      Z.of_nat (length (filter (fun p => userId p = uid /\
                                  periodStart <= createdAt p <= periodEnd)
                          (lessonPlan_table w))) in
    remainingGenerations d = Z.max 0 ((if isSub then 30 else 10) - count) /\
    (forall P rest,
       subscriptionData info = P :: rest ->
       status P = "active" ->
       count = 30 ->
       isEligible d = false /\
       remainingGenerations d = 0 /\
       message d =
         "You have reached the maximum number of lesson plans (30) for this subscription period. Reset Date: "
         +:+ toLocaleDateString (current_period_end P * 1000)).
Proof.
  intros Hid Hu Hrow Hinfo.
  destruct (check_resolved w uid u c info Hid Hu Hrow Hinfo)
    as (pre & Hpre & Hrun).
  specialize (Hrun (calls w)). rewrite with_calls_id in Hrun.
  destruct (period_of _ _) as [[isSub gte] lte] eqn:Hperiod.
  eexists _, pre, isSub, gte, lte.
  split; [reflexivity|]. split; [exact Hrun|]. split; [exact Hpre|].
  cbn zeta. rewrite decision_of_remaining, <- lessonPlan_count_filter.
  split; [reflexivity|].
  intros P rest Hsubs Hst Hcount.
  rewrite Hsubs in Hperiod. cbn [period_of] in Hperiod.
  apply String.eqb_eq in Hst. rewrite Hst in Hperiod.
  injection Hperiod as <- <- <-.
  unfold decision_of. rewrite Hcount. cbn. done.
Qed.

(** C7, as the code has it.  Two calls in a row, the second at clock
    reading [t], nothing else having changed in between, return the
    same decision when the clock reads the same at both ([t = clock w])
    or when the first subscription is "active", where the clock is not
    used. *)
Theorem same_clock_same_decision w t info :
  (hasSubscription w).1 = Ok info ->
  t = clock w \/ first_active (subscriptionData info) = true ->
  let first := checkLessonPlanCreationEligibility w in
  let second := checkLessonPlanCreationEligibility (set_clock t first.2) in
  (exists d, first.1 = Ok d) /\ second.1 = first.1.
Proof.
  intros Hinfo Hsame first second. subst first second.
  destruct (resolved_or_not w) as [(uid & u & c & Hid & Hu & Hrow) | Hno].
  - destruct (check_resolved w uid u c info Hid Hu Hrow Hinfo)
      as (pre & _ & Hrun).
    pose proof (Hrun (calls w)) as Hfirst. rewrite with_calls_id in Hfirst.
    assert (Hinfo' : (hasSubscription (set_clock t w)).1 = Ok info)
      by by rewrite hasSubscription_clock.
    destruct (check_resolved (set_clock t w) uid u c info Hid Hu Hrow Hinfo')
      as (pre' & _ & Hrun').
    cbn [clock set_clock lessonPlan_table] in Hrun'.
    destruct (period_of (subscriptionData info) (clock w))
      as [[isSub gte] lte] eqn:Hperiod.
    rewrite Hfirst. cbn [fst snd]. split; [by eexists|].
    rewrite set_clock_with_calls, Hrun'.
    destruct Hsame as [-> | Hactive].
    + by rewrite Hperiod.
    + destruct (subscriptionData info) as [|P rest]; [done|].
      cbn [first_active] in Hactive. cbn [period_of] in Hperiod |- *.
      rewrite Hactive in Hperiod |- *.
      injection Hperiod as <- <- <-. reflexivity.
  - destruct (check_unresolved w Hno) as (cs & _ & Hrun).
    destruct (check_unresolved (set_clock t w) Hno) as (cs' & _ & Hrun').
    pose proof (Hrun (calls w)) as Hfirst. rewrite with_calls_id in Hfirst.
    rewrite Hfirst. cbn [fst snd]. split; [by eexists|].
    by rewrite set_clock_with_calls, Hrun'.
Qed.

(** C8.  The function always returns a decision, and every decision it
    returns has 0 <= remainingGenerations <= 30 and
    isEligible = (remainingGenerations > 0). *)
Theorem decision_invariant w :
  exists d w',
    checkLessonPlanCreationEligibility w = (Ok d, w') /\
    0 <= remainingGenerations d <= 30 /\
    isEligible d = (remainingGenerations d >? 0).
Proof.
  destruct (resolved_or_not w) as [(uid & u & c & Hid & Hu & Hrow) | Hno].
  - destruct (hasSubscription_run w) as (info & cs & Hsub & _).
    assert (Hinfo : (hasSubscription w).1 = Ok info).
    { specialize (Hsub (calls w)). rewrite with_calls_id in Hsub.
      by rewrite Hsub. }
    destruct (check_resolved w uid u c info Hid Hu Hrow Hinfo)
      as (pre & _ & Hrun).
    specialize (Hrun (calls w)). rewrite with_calls_id in Hrun.
    destruct (period_of _ _) as [[isSub gte] lte].
    eexists _, _. split; [exact Hrun|].
    rewrite decision_of_eligible, decision_of_remaining, Z.gtb_ltb.
    split; [|reflexivity].
    pose proof (lessonPlan_count_nonneg (lessonPlan_table w) uid gte lte).
    destruct isSub; lia.
  - destruct (check_unresolved w Hno) as (cs & _ & Hrun).
    specialize (Hrun (calls w)). rewrite with_calls_id in Hrun.
    eexists _, _. split; [exact Hrun|]. cbn. split; [lia|reflexivity].
Qed.

(** C9.  When the current user's row in prisma.user holds a customer
    id (a non-empty string), createCustomerIfNull returns that id after
    reading the session and the row: it creates no Stripe customer and
    updates no row, so the user table and Stripe's customers are as they
    were. *)
Theorem createCustomerIfNull_existing w u customer :
  session_user w = Some u ->
  user_table w !! clerk_id u = Some (Some customer) ->
  customer <> "" ->
  exists w',
    createCustomerIfNull w = (Ok customer, w') /\
    w' = with_calls (calls w ++ [Clerk_currentUser;
                                 Prisma_user_findUnique (clerk_id u)]) w /\
    user_table w' = user_table w /\
    stripe_customers w' = stripe_customers w /\
    Forall (fun c => is_write c = false)
      (drop (length (calls w)) (calls w')).
Proof.
  intros Hu Hrow Hne.
  eexists. split.
  - unfold createCustomerIfNull, bind at 1, currentUser. rewrite Hu.
    unfold bind at 1, prisma_user_findUnique. cbn. rewrite Hrow.
    cbn [opt_stripe_customer_id stripe_customer_id].
    rewrite truthy_nonempty by done. unfold ret. log_norm. reflexivity.
  - split; [reflexivity|]. split; [reflexivity|]. split; [reflexivity|].
    cbn [calls with_calls]. rewrite drop_app_length. by repeat constructor.
Qed.

(** C10.  For a signed-in user whose row holds a customer id,
    hasSubscription hands back the list Stripe returns for that id and
    reports isSubscribed = true exactly when the list is not empty,
    whatever the statuses.  So when the list is one "canceled"
    subscription, hasSubscription says subscribed, while the
    eligibility function leaves remainingGenerations at
    max(0, 10 - count), the free limit. *)
Theorem hasSubscription_ignores_status w uid u customer :
  truthy (session_userId w) = Some uid ->
  session_user w = Some u ->
  user_table w !! uid = Some (Some customer) ->
  customer <> "" ->
  exists info w1 subs w2 d w3,
    hasSubscription w = (Ok info, w1) /\
    stripe_subscriptions_list customer w = (Ok subs, w2) /\
    subscriptionData info = subs /\
    (isSubscribed info = true <-> subs <> []) /\
    checkLessonPlanCreationEligibility w = (Ok d, w3) /\
    (forall s,
       subs = [s] -> status s = "canceled" ->
       isSubscribed info = true /\
       remainingGenerations d =
         Z.max 0 (10 - lessonPlan_count (lessonPlan_table w) uid
                         (current_period_start s * 1000)
                         (current_period_end s * 1000))).
Proof.
  intros Hid Hu Hrow Hne.
  pose proof (hasSubscription_signed_in w uid u _ Hid Hu Hrow) as Hsub.
  rewrite truthy_nonempty in Hsub by done. cbn zeta in Hsub.
  set (subs := default [] (stripe_subscriptions w !! customer)) in *.
  assert (Hinfo : (hasSubscription w).1 =
                  Ok {| isSubscribed := (Z.of_nat (length subs) >? 0);
                        subscriptionData := subs |}) by by rewrite Hsub.
  destruct (check_resolved w uid u _ _ Hid Hu Hrow Hinfo) as (pre & _ & Hrun).
  specialize (Hrun (calls w)). rewrite with_calls_id in Hrun.
  cbn [subscriptionData] in Hrun.
  destruct (period_of subs (clock w)) as [[isSub gte] lte] eqn:Hperiod.
  eexists _, _, subs, _, _, _.
  split; [exact Hsub|]. split; [reflexivity|]. split; [reflexivity|].
  split; [|split; [exact Hrun|]].
  - cbn [isSubscribed]. rewrite Z.gtb_ltb, Z.ltb_lt.
    destruct subs; cbn [length]; split; (done || lia).
  - intros s Hs Hst. cbn [isSubscribed]. rewrite Hs in Hperiod |- *.
    split; [reflexivity|].
    cbn [period_of] in Hperiod. rewrite Hst in Hperiod.
    injection Hperiod as <- <- <-.
    by rewrite decision_of_remaining.
Qed.

End Quota.

(* --------------------------------------------------------------------- *)
(* The theorems at the sample worlds                                     *)
(* --------------------------------------------------------------------- *)

Lemma limit_and_remaining_witness :
  let w := Sample.world (Some "user_free")
             (Sample.plans "user_free" 1701000000000 5) 1701000001000 in
  exists d pre,
    checkLessonPlanCreationEligibility w =
      (Ok d, with_calls (calls w ++ pre ++
               [Prisma_lessonPlan_count "user_free"
                  (1701000001000 - 30 * 24 * 60 * 1000) 1701000001000]) w) /\
    Forall (fun c => is_usage_query c = false) pre /\
    lessonPlan_count (lessonPlan_table w) "user_free"
      (1701000001000 - 30 * 24 * 60 * 1000) 1701000001000 = 5 /\
    remainingGenerations d = 5 /\
    isEligible d = true.
Proof.
  intros w.
  destruct (limit_and_remaining w "user_free" (Sample.clerk "user_free") None
              {| isSubscribed := false; subscriptionData := [] |}
              eq_refl eq_refl eq_refl eq_refl)
    as (_ & d & pre & Hrun & Hpre & _ & _ & Hfive).
  exists d, pre. split; [exact Hrun|]. split; [exact Hpre|].
  split; [reflexivity|].
  apply Hfive; reflexivity.
Defined.

Lemma not_signed_in_decision_witness :
  let w := Sample.world None (Sample.plans "user_free" 1701000000000 3)
             1701000001000 in
  exists cs,
    checkLessonPlanCreationEligibility w =
      (Ok {| isEligible := false;
             message := "You must be logged in to see how many lesson plans you can make.";
             remainingGenerations := 0 |},
       with_calls (calls w ++ cs) w) /\
    Forall (fun c => is_usage_query c = false /\ is_stripe_call c = false) cs.
Proof.
  intros w. apply (not_signed_in_decision w). left. reflexivity.
Defined.

Lemma inactive_subscription_window_witness :
  let w := Sample.world (Some "user_gone")
             (Sample.plans "user_gone" 1701000000000 4) 1701000001000 in
  exists d pre,
    checkLessonPlanCreationEligibility w =
      (Ok d, with_calls (calls w ++ pre ++
               [Prisma_lessonPlan_count "user_gone"
                  (1700000000 * 1000) (1702592000 * 1000)]) w) /\
    Forall (fun c => is_usage_query c = false) pre /\
    remainingGenerations d =
      Z.max 0 (10 - lessonPlan_count (lessonPlan_table w) "user_gone"
                      (1700000000 * 1000) (1702592000 * 1000)) /\
    isEligible d =
      (0 <? 10 - lessonPlan_count (lessonPlan_table w) "user_gone"
                   (1700000000 * 1000) (1702592000 * 1000)).
Proof.
  intros w.
  apply (inactive_subscription_window w "user_gone" (Sample.clerk "user_gone")
           (Some "cus_gone")
           {| isSubscribed := true; subscriptionData := [Sample.sub "canceled"] |}
           (Sample.sub "canceled") []);
    [reflexivity..|].
  discriminate.
Defined.

Lemma no_subscription_window_witness :
  let w := Sample.world (Some "user_free")
             (Sample.plans "user_free" 1701000000000 4) 1701000001000 in
  let count := lessonPlan_count (lessonPlan_table w) "user_free"
                 (1701000001000 - 43200 * 1000) 1701000001000 in
  exists pre,
    checkLessonPlanCreationEligibility w =
      (Ok (decision_of false 1701000001000 1701000001000 count),
       with_calls (calls w ++ pre ++
         [Prisma_lessonPlan_count "user_free"
            (1701000001000 - 43200 * 1000) 1701000001000]) w) /\
    Forall (fun c => is_usage_query c = false) pre /\
    remainingGenerations (decision_of false 1701000001000 1701000001000 count) =
      Z.max 0 (10 - count).
Proof.
  intros w count.
  apply (no_subscription_window w "user_free" (Sample.clerk "user_free") None
           {| isSubscribed := false; subscriptionData := [] |});
    reflexivity.
Defined.

Lemma free_tier_reset_date_witness :
  let w := Sample.world (Some "user_free")
             (Sample.plans "user_free" 1700004000000 10) 1700004600000 in
  exists d w',
    checkLessonPlanCreationEligibility w = (Ok d, w') /\
    (remainingGenerations d = 0 ->
     message d =
       "You have reached the maximum number of lesson plan generations (10) for the free tier. You can generate more starting "
       +:+ toLocaleDateString (clock w + 24 + 60 * 60 * 1000)).
Proof.
  intros w.
  apply (free_tier_reset_date w "user_free" (Sample.clerk "user_free") None
           {| isSubscribed := false; subscriptionData := [] |});
    reflexivity.
Defined.

(** C5 as it was stated fails.  At 23:30:00 UTC on 14 November 2023 a
    free user with ten plans in the window is told 11/15/2023, the date
    an hour later; the current time plus 24 seconds and 3600
    milliseconds, and the current time plus 24 + 3600 milliseconds, are
    both still on 11/14/2023. *)
Lemma free_tier_reset_date_counterexample :
  let w := Sample.world (Some "user_free")
             (Sample.plans "user_free" 1700004000000 10) 1700004600000 in
  exists d,
    (checkLessonPlanCreationEligibility w).1 = Ok d /\
    remainingGenerations d = 0 /\
    message d =
      "You have reached the maximum number of lesson plan generations (10) for the free tier. You can generate more starting 11/15/2023" /\
    message d <>
      "You have reached the maximum number of lesson plan generations (10) for the free tier. You can generate more starting "
      +:+ toLocaleDateString (clock w + 24 * 1000 + 3600) /\
    message d <>
      "You have reached the maximum number of lesson plan generations (10) for the free tier. You can generate more starting "
      +:+ toLocaleDateString (clock w + 24 + 3600).
Proof.
  intros w. eexists. split; [reflexivity|].
  split; [reflexivity|]. split; [reflexivity|].
  split; vm_compute; discriminate.
Qed.

Lemma usage_window_inclusive_witness :
  let w := Sample.world (Some "user_paid")
             (Sample.plans "user_paid" 1702592000000 30) 1701000001000 in
  exists d pre isSub periodStart periodEnd,
    period_of [Sample.sub "active"] (clock w) = (isSub, periodStart, periodEnd) /\
    checkLessonPlanCreationEligibility w =
      (Ok d, with_calls (calls w ++ pre ++
               [Prisma_lessonPlan_count "user_paid" periodStart periodEnd]) w) /\
    Forall (fun c => is_usage_query c = false) pre /\
    let count :=
      Z.of_nat (length (filter (fun p => userId p = "user_paid" /\
                                  periodStart <= createdAt p <= periodEnd)
                          (lessonPlan_table w))) in
    remainingGenerations d = Z.max 0 ((if isSub then 30 else 10) - count) /\
    (forall P rest,
       [Sample.sub "active"] = P :: rest ->
       status P = "active" ->
       count = 30 ->
       isEligible d = false /\
       remainingGenerations d = 0 /\
       message d =
         "You have reached the maximum number of lesson plans (30) for this subscription period. Reset Date: "
         +:+ toLocaleDateString (current_period_end P * 1000)).
Proof.
  intros w.
  apply (usage_window_inclusive w "user_paid" (Sample.clerk "user_paid")
           (Some "cus_paid")
           {| isSubscribed := true; subscriptionData := [Sample.sub "active"] |});
    reflexivity.
Defined.

(** Thirty plans, every one created at the very end of the period, all
    count; the reset date is that of current_period_end. *)
Example active_subscriber_thirty_plans :
  (checkLessonPlanCreationEligibility
     (Sample.world (Some "user_paid")
        (Sample.plans "user_paid" 1702592000000 30) 1701000001000)).1 =
  Ok {| isEligible := false;
        message := "You have reached the maximum number of lesson plans (30) for this subscription period. Reset Date: 12/14/2023";
        remainingGenerations := 0 |}.
Proof. reflexivity. Qed.

(** A millisecond before the start or after the end, a plan is out. *)
Example window_endpoints :
  let rows := [ {| userId := "user_paid"; createdAt := 1700000000000 - 1 |};
                {| userId := "user_paid"; createdAt := 1700000000000 |};
                {| userId := "user_paid"; createdAt := 1702592000000 |};
                {| userId := "user_paid"; createdAt := 1702592000000 + 1 |};
                {| userId := "user_free"; createdAt := 1701000000000 |} ] in
  (checkLessonPlanCreationEligibility
     (Sample.world (Some "user_paid") rows 1701000001000)).1 =
  Ok {| isEligible := true;
        message := "You have 28 lesson plan generations remaining for this billing cycle";
        remainingGenerations := 28 |}.
Proof. reflexivity. Qed.

Example free_user_five_plans :
  (checkLessonPlanCreationEligibility
     (Sample.world (Some "user_free")
        (Sample.plans "user_free" 1701000000000 5) 1701000001000)).1 =
  Ok {| isEligible := true;
        message := "You have 5 lesson plan generations remaining for this month";
        remainingGenerations := 5 |}.
Proof. reflexivity. Qed.

Lemma same_clock_same_decision_witness :
  let w := Sample.world (Some "user_free")
             (Sample.plans "user_free" 1700000000000 1) 1700043200000 in
  let first := checkLessonPlanCreationEligibility w in
  let second := checkLessonPlanCreationEligibility (set_clock 1700043200000 first.2) in
  (exists d, first.1 = Ok d) /\ second.1 = first.1.
Proof.
  intros w.
  apply (same_clock_same_decision w 1700043200000
           {| isSubscribed := false; subscriptionData := [] |});
    [reflexivity|].
  left. reflexivity.
Defined.

(** C7 as it was stated fails.  A free user has one plan, created
    exactly twelve hours before the first call; the second call comes
    one millisecond later, the session, the subscriptions and the
    lessonPlan table being what they were.  The plan has left the window:
    nine remaining at the first call, ten at the second. *)
Lemma idempotence_counterexample :
  let w := Sample.world (Some "user_free")
             (Sample.plans "user_free" 1700000000000 1) 1700043200000 in
  let first := checkLessonPlanCreationEligibility w in
  let w2 := set_clock (clock w + 1) first.2 in
  let second := checkLessonPlanCreationEligibility w2 in
  session_userId w2 = session_userId w /\
  session_user w2 = session_user w /\
  user_table w2 = user_table w /\
  stripe_subscriptions w2 = stripe_subscriptions w /\
  lessonPlan_table w2 = lessonPlan_table w /\
  first.1 = Ok {| isEligible := true;
                  message := "You have 9 lesson plan generations remaining for this month";
                  remainingGenerations := 9 |} /\
  second.1 = Ok {| isEligible := true;
                   message := "You have 10 lesson plan generations remaining for this month";
                   remainingGenerations := 10 |} /\
  second.1 <> first.1.
Proof.
  intros w first w2 second.
  do 5 (split; [reflexivity|]).
  split; [reflexivity|]. split; [reflexivity|].
  vm_compute. discriminate.
Qed.

Lemma createCustomerIfNull_existing_witness :
  let w := Sample.world (Some "user_paid") [] 1701000001000 in
  exists w',
    createCustomerIfNull w = (Ok "cus_paid", w') /\
    w' = with_calls (calls w ++ [Clerk_currentUser;
                                 Prisma_user_findUnique "user_paid"]) w /\
    user_table w' = user_table w /\
    stripe_customers w' = stripe_customers w /\
    Forall (fun c => is_write c = false)
      (drop (length (calls w)) (calls w')).
Proof.
  intros w.
  apply (createCustomerIfNull_existing w (Sample.clerk "user_paid") "cus_paid");
    [reflexivity | reflexivity | discriminate].
Defined.

(** The other path, for contrast: no customer id yet, so a customer is
    created and the row updated. *)
Example createCustomerIfNull_fresh :
  let r := createCustomerIfNull (Sample.world (Some "user_free") [] 0) in
  r.1 = Ok "cus_0" /\
  user_table r.2 !! "user_free" = Some (Some "cus_0") /\
  stripe_customers r.2 =
    [ {| customer_id := "cus_0"; customer_email := "ada@example.com";
         customer_name := "Ada null" |} ] /\
  calls r.2 = [Clerk_currentUser; Prisma_user_findUnique "user_free";
               Stripe_customers_create "ada@example.com" "Ada null";
               Prisma_user_update "user_free" "cus_0"].
Proof. vm_compute. done. Qed.

Lemma hasSubscription_ignores_status_witness :
  let w := Sample.world (Some "user_gone")
             (Sample.plans "user_gone" 1701000000000 4) 1701000001000 in
  exists info w1 subs w2 d w3,
    hasSubscription w = (Ok info, w1) /\
    stripe_subscriptions_list "cus_gone" w = (Ok subs, w2) /\
    subscriptionData info = subs /\
    (isSubscribed info = true <-> subs <> []) /\
    checkLessonPlanCreationEligibility w = (Ok d, w3) /\
    (forall s,
       subs = [s] -> status s = "canceled" ->
       isSubscribed info = true /\
       remainingGenerations d =
         Z.max 0 (10 - lessonPlan_count (lessonPlan_table w) "user_gone"
                         (current_period_start s * 1000)
                         (current_period_end s * 1000))).
Proof.
  intros w.
  apply (hasSubscription_ignores_status w "user_gone" (Sample.clerk "user_gone")
           "cus_gone");
    [reflexivity | reflexivity | reflexivity | discriminate].
Defined.

Example canceled_subscriber :
  let w := Sample.world (Some "user_gone")
             (Sample.plans "user_gone" 1701000000000 4) 1701000001000 in
  (hasSubscription w).1 =
    Ok {| isSubscribed := true; subscriptionData := [Sample.sub "canceled"] |} /\
  (checkLessonPlanCreationEligibility w).1 =
    Ok {| isEligible := true;
          message := "You have 6 lesson plan generations remaining for this month";
          remainingGenerations := 6 |}.
Proof. split; reflexivity. Qed.

(* ===================================================================== *)
(* Further properties of stripe.ts                                       *)
(* ===================================================================== *)

(* --------------------------------------------------------------------- *)
(* createCustomerIfNull: the other paths                                 *)
(* --------------------------------------------------------------------- *)

Section Customer.
Context `{Host}.

(** X1.  With nobody signed in, createCustomerIfNull throws "User not
    authenticated" right after asking Clerk: it reads no row, contacts
    Stripe for nothing, and changes nothing but the log. *)
Theorem createCustomerIfNull_unauthenticated w :
  session_user w = None ->
  createCustomerIfNull w =
    (Throw "User not authenticated",
     with_calls (calls w ++ [Clerk_currentUser]) w).
Proof.
  intros Hu.
  unfold createCustomerIfNull, bind, currentUser. by rewrite Hu.
Qed.

(** The run of createCustomerIfNull when the row holds no usable
    customer id and the user has an e-mail address. *)
Lemma createCustomerIfNull_creates w u c e es :
  session_user w = Some u ->
  user_table w !! clerk_id u = Some c ->
  truthy c = None ->
  emailAddresses u = e :: es ->
  let customer :=
    {| customer_id := newCustomerId (length (stripe_customers w));
       customer_email := emailAddress e;
       customer_name := template_string (firstName u) +:+ " "
                        +:+ template_string (lastName u) |} in
  createCustomerIfNull w =
    (Ok (customer_id customer),
     set_user_table (<[clerk_id u := Some (customer_id customer)]> (user_table w))
       (set_stripe_customers (stripe_customers w ++ [customer])
          (with_calls (calls w ++
             [Clerk_currentUser;
              Prisma_user_findUnique (clerk_id u);
              Stripe_customers_create (customer_email customer)
                (customer_name customer);
              Prisma_user_update (clerk_id u) (customer_id customer)]) w))).
Proof.
  intros Hu Hrow Hc He customer.
  unfold createCustomerIfNull, bind at 1, currentUser. rewrite Hu.
  unfold bind at 1, prisma_user_findUnique. cbn. rewrite Hrow.
  cbn [opt_stripe_customer_id stripe_customer_id]. rewrite Hc, He.
  unfold bind, stripe_customers_create, prisma_user_update, ret.
  cbn. rewrite Hrow. unfold set_user_table, set_stripe_customers.
  cbn. log_norm. reflexivity.
Qed.

(** The run of createCustomerIfNull when the row holds a customer id. *)
Lemma createCustomerIfNull_reads w u c customer :
  session_user w = Some u ->
  user_table w !! clerk_id u = Some c ->
  truthy c = Some customer ->
  createCustomerIfNull w =
    (Ok customer,
     with_calls (calls w ++ [Clerk_currentUser;
                             Prisma_user_findUnique (clerk_id u)]) w).
Proof.
  intros Hu Hrow Hc.
  unfold createCustomerIfNull, bind at 1, currentUser. rewrite Hu.
  unfold bind at 1, prisma_user_findUnique. cbn. rewrite Hrow.
  cbn [opt_stripe_customer_id stripe_customer_id]. rewrite Hc.
  unfold ret. log_norm. reflexivity.
Qed.

(** X2.  When the signed-in user's row holds no customer id (null, or
    the empty string) and the user has an e-mail address,
    createCustomerIfNull creates one Stripe customer, with the first
    e-mail address and the name "<firstName> <lastName>", stores its id
    in the user's row and returns it.  Every other row, the lessonPlan
    table, the subscriptions and the session are as they were, and the
    calls are, in order: currentUser, findUnique, customers.create,
    user.update. *)
Theorem createCustomerIfNull_fresh_customer w u c e es :
  session_user w = Some u ->
  user_table w !! clerk_id u = Some c ->
  truthy c = None ->
  emailAddresses u = e :: es ->
  let id := newCustomerId (length (stripe_customers w)) in
  let name := template_string (firstName u) +:+ " "
              +:+ template_string (lastName u) in
  exists w',
    createCustomerIfNull w = (Ok id, w') /\
    stripe_customers w' =
      (stripe_customers w ++
       [ {| customer_id := id; customer_email := emailAddress e;
            customer_name := name |} ])%list /\
    user_table w' = <[clerk_id u := Some id]> (user_table w) /\
    calls w' =
      (calls w ++ [Clerk_currentUser; Prisma_user_findUnique (clerk_id u);
                   Stripe_customers_create (emailAddress e) name;
                   Prisma_user_update (clerk_id u) id])%list /\
    lessonPlan_table w' = lessonPlan_table w /\
    stripe_subscriptions w' = stripe_subscriptions w /\
    session_userId w' = session_userId w /\
    session_user w' = session_user w.
Proof.
  intros Hu Hrow Hc He id name.
  eexists. split; [exact (createCustomerIfNull_creates w u c e es Hu Hrow Hc He)|].
  repeat split.
Qed.

(** X3.  Whenever createCustomerIfNull returns an id, the signed-in
    user's row holds that id afterwards, every other row is untouched,
    at most one Stripe customer was added, and the lessonPlan table and
    the subscriptions are as they were. *)
Theorem createCustomerIfNull_postcondition w u id w' :
  session_user w = Some u ->
  createCustomerIfNull w = (Ok id, w') ->
  user_table w' !! clerk_id u = Some (Some id) /\
  (forall k, k <> clerk_id u -> user_table w' !! k = user_table w !! k) /\
  (stripe_customers w' = stripe_customers w \/
   exists c, customer_id c = id /\
             stripe_customers w' = (stripe_customers w ++ [c])%list) /\
  lessonPlan_table w' = lessonPlan_table w /\
  stripe_subscriptions w' = stripe_subscriptions w.
Proof.
  intros Hu Hrun.
  destruct (user_table w !! clerk_id u) as [c|] eqn:Hrow.
  - destruct (truthy c) as [customer|] eqn:Hc.
    + rewrite (createCustomerIfNull_reads w u c customer Hu Hrow Hc) in Hrun.
      injection Hrun as <- <-.
      apply truthy_Some in Hc as [-> _].
      cbn. rewrite Hrow. repeat split; auto.
    + destruct (emailAddresses u) as [|e es] eqn:He.
      * unfold createCustomerIfNull, bind at 1, currentUser in Hrun.
        rewrite Hu in Hrun.
        unfold bind at 1, prisma_user_findUnique in Hrun. cbn in Hrun.
        rewrite Hrow in Hrun.
        cbn [opt_stripe_customer_id stripe_customer_id] in Hrun.
        rewrite Hc, He in Hrun. discriminate.
      * rewrite (createCustomerIfNull_creates w u c e es Hu Hrow Hc He) in Hrun.
        injection Hrun as <- <-. cbn.
        split; [by rewrite lookup_insert_eq|].
        split; [by intros k Hk; rewrite lookup_insert_ne|].
        split; [right; eexists; split; [|reflexivity]; reflexivity|]. done.
  - unfold createCustomerIfNull, bind at 1, currentUser in Hrun.
    rewrite Hu in Hrun.
    unfold bind at 1, prisma_user_findUnique in Hrun. cbn in Hrun.
    rewrite Hrow in Hrun. cbn in Hrun.
    destruct (emailAddresses u) as [|e es]; [discriminate|].
    unfold bind, stripe_customers_create, prisma_user_update in Hrun.
    cbn in Hrun. rewrite Hrow in Hrun. discriminate.
Qed.

(** X4.  A second call right after a call that created a customer
    returns the same id and only reads: no second customer is created
    and no row is written.  (Stripe's ids are not empty.) *)
Theorem createCustomerIfNull_twice w u c e es :
  session_user w = Some u ->
  user_table w !! clerk_id u = Some c ->
  truthy c = None ->
  emailAddresses u = e :: es ->
  newCustomerId (length (stripe_customers w)) <> "" ->
  exists id w1,
    createCustomerIfNull w = (Ok id, w1) /\
    length (stripe_customers w1) = S (length (stripe_customers w)) /\
    createCustomerIfNull w1 =
      (Ok id, with_calls (calls w1 ++ [Clerk_currentUser;
                                       Prisma_user_findUnique (clerk_id u)]) w1).
Proof.
  intros Hu Hrow Hc He Hid.
  eexists _, _.
  split; [exact (createCustomerIfNull_creates w u c e es Hu Hrow Hc He)|].
  split; [cbn; rewrite length_app; cbn; lia|].
  eapply createCustomerIfNull_reads.
  - exact Hu.
  - cbn. by rewrite lookup_insert_eq.
  - by apply truthy_nonempty.
Qed.

(** X5.  When the signed-in user has no row in prisma.user (and has an
    e-mail address), createCustomerIfNull throws, but only at the
    update: by then the Stripe customer has been created, and it stays
    at Stripe with no row pointing to it. *)
Theorem createCustomerIfNull_orphan_customer w u e es :
  session_user w = Some u ->
  user_table w !! clerk_id u = None ->
  emailAddresses u = e :: es ->
  let id := newCustomerId (length (stripe_customers w)) in
  let name := template_string (firstName u) +:+ " "
              +:+ template_string (lastName u) in
  exists msg w',
    createCustomerIfNull w = (Throw msg, w') /\
    stripe_customers w' =
      (stripe_customers w ++
       [ {| customer_id := id; customer_email := emailAddress e;
            customer_name := name |} ])%list /\
    user_table w' = user_table w /\
    calls w' =
      (calls w ++ [Clerk_currentUser; Prisma_user_findUnique (clerk_id u);
                   Stripe_customers_create (emailAddress e) name;
                   Prisma_user_update (clerk_id u) id])%list.
Proof.
  intros Hu Hrow He id name.
  unfold createCustomerIfNull, bind at 1, currentUser. rewrite Hu.
  unfold bind at 1, prisma_user_findUnique. cbn. rewrite Hrow. cbn. rewrite He.
  unfold bind, stripe_customers_create, prisma_user_update.
  cbn. rewrite Hrow.
  eexists _, _. split; [reflexivity|]. cbn.
  split; [reflexivity|]. split; [reflexivity|].
  by rewrite <- !(assoc_L (++)).
Qed.

(** X6.  When a customer would have to be created but the signed-in
    user has no e-mail address, the read of emailAddresses[0] throws
    before Stripe is contacted: nothing is created, nothing is
    written. *)
Theorem createCustomerIfNull_no_email w u :
  session_user w = Some u ->
  (user_table w !! clerk_id u = None \/
   exists c, user_table w !! clerk_id u = Some c /\ truthy c = None) ->
  emailAddresses u = [] ->
  createCustomerIfNull w =
    (Throw "Cannot read properties of undefined (reading 'emailAddress')",
     with_calls (calls w ++ [Clerk_currentUser;
                             Prisma_user_findUnique (clerk_id u)]) w).
Proof.
  intros Hu Hrow He.
  unfold createCustomerIfNull, bind at 1, currentUser. rewrite Hu.
  unfold bind at 1, prisma_user_findUnique. cbn.
  destruct Hrow as [Hrow | (c & Hrow & Hc)]; rewrite Hrow;
    cbn [opt_stripe_customer_id stripe_customer_id];
    rewrite ?Hc, He; unfold throw; log_norm; reflexivity.
Qed.

(** X7.  createCustomerIfNull and hasSubscription agree on the user:
    when the session's userId is the current user's id, hasSubscription
    called after createCustomerIfNull has created a customer asks
    Stripe for the subscriptions of exactly that customer. *)
Theorem createCustomerIfNull_then_hasSubscription w u c e es :
  truthy (session_userId w) = Some (clerk_id u) ->
  session_user w = Some u ->
  user_table w !! clerk_id u = Some c ->
  truthy c = None ->
  emailAddresses u = e :: es ->
  newCustomerId (length (stripe_customers w)) <> "" ->
  exists id w1,
    createCustomerIfNull w = (Ok id, w1) /\
    let subscriptions := default [] (stripe_subscriptions w !! id) in
    hasSubscription w1 =
      (Ok {| isSubscribed := (Z.of_nat (length subscriptions) >? 0);
             subscriptionData := subscriptions |},
       with_calls (calls w1 ++ [Clerk_auth; Clerk_currentUser;
                                Prisma_user_findUnique (clerk_id u);
                                Stripe_subscriptions_list id]) w1).
Proof.
  intros Hsid Hu Hrow Hc He Hid.
  eexists _, _.
  split; [exact (createCustomerIfNull_creates w u c e es Hu Hrow Hc He)|].
  cbn zeta.
  erewrite hasSubscription_signed_in.
  - rewrite truthy_nonempty by exact Hid. reflexivity.
  - exact Hsid.
  - exact Hu.
  - cbn. by rewrite lookup_insert_eq.
Qed.

End Customer.

(* --------------------------------------------------------------------- *)
(* hasSubscription: every path                                           *)
(* --------------------------------------------------------------------- *)

Lemma length_positive_nonempty {A} (l : list A) :
  (Z.of_nat (length l) >? 0) = true <-> l <> [].
Proof.
  rewrite Z.gtb_ltb, Z.ltb_lt. destruct l; cbn [length]; split; (done || lia).
Qed.

Lemma hasSubscription_shape w :
  exists info cs,
    (forall l,
      hasSubscription (with_calls l w) = (Ok info, with_calls (l ++ cs) w)) /\
    Forall (fun c => is_write c = false /\ is_usage_query c = false) cs /\
    (length (List.filter is_stripe_call cs) <= 1)%nat /\
    (isSubscribed info = true <-> subscriptionData info <> []).
Proof.
  unfold hasSubscription, bind, auth, currentUser, prisma_user_findUnique,
    stripe_subscriptions_list, ret.
  cbn.
  destruct (truthy (session_userId w)) as [uid|]; cbn.
  - destruct (session_user w) as [u|]; cbn.
    + destruct (truthy (opt_stripe_customer_id _)) as [customer|]; cbn.
      * eexists _, _. split; [intros l; log_norm; reflexivity|].
        split; [by repeat constructor|]. split; [cbn; lia|].
        apply length_positive_nonempty.
      * eexists _, _. split; [intros l; log_norm; reflexivity|].
        split; [by repeat constructor|]. split; [cbn; lia|]. done.
    + eexists _, _. split; [intros l; log_norm; reflexivity|].
      split; [by repeat constructor|]. split; [cbn; lia|]. done.
  - exists {| isSubscribed := false; subscriptionData := [] |},
      [Clerk_auth; Clerk_currentUser].
    split; [intros l; destruct (session_user w); log_norm; reflexivity|].
    split; [by repeat constructor|]. split; [cbn; lia|]. done.
Qed.


(** X9.  Stripe is asked for subscriptions only for a signed-in user
    whose row holds a customer id.  With nobody signed in, with no row,
    or with a row whose customer id is null or empty, hasSubscription
    answers "not subscribed, no subscriptions" without contacting
    Stripe. *)
Theorem hasSubscription_without_customer w :
  (truthy (session_userId w) = None \/ session_user w = None \/
   exists uid, truthy (session_userId w) = Some uid /\
     (user_table w !! uid = None \/
      exists c, user_table w !! uid = Some c /\ truthy c = None)) ->
  exists cs,
    hasSubscription w =
      (Ok {| isSubscribed := false; subscriptionData := [] |},
       with_calls (calls w ++ cs) w) /\
    Forall (fun c => is_stripe_call c = false) cs.
Proof.
  intros Hno.
  unfold hasSubscription, bind, auth, currentUser, prisma_user_findUnique,
    stripe_subscriptions_list, ret.
  cbn.
  destruct (truthy (session_userId w)) as [uid|] eqn:Hid.
  - destruct (session_user w) as [u|] eqn:Hu; cbn.
    + destruct Hno as [[=] | [[=] | (uid' & [= <-] & Hrow)]].
      exists [Clerk_auth; Clerk_currentUser; Prisma_user_findUnique uid].
      split; [|by repeat constructor].
      destruct Hrow as [Hrow | (c & Hrow & Hc)]; rewrite Hrow;
        cbn [opt_stripe_customer_id stripe_customer_id];
        rewrite ?Hc; cbn [truthy]; log_norm; reflexivity.
    + exists [Clerk_auth; Clerk_currentUser].
      split; [|by repeat constructor]. log_norm. reflexivity.
  - exists [Clerk_auth; Clerk_currentUser].
    split; [|by repeat constructor].
    destruct (session_user w); log_norm; reflexivity.
Qed.

(** The data of prisma.lessonPlan is not an input of hasSubscription. *)
Lemma hasSubscription_lessonPlans rows w :
  (hasSubscription (set_lessonPlan_table rows w)).1 = (hasSubscription w).1.
Proof.
  unfold hasSubscription, bind, auth, currentUser, prisma_user_findUnique,
    stripe_subscriptions_list, ret.
  cbn.
  destruct (truthy (session_userId w)); cbn; [|by destruct (session_user w)].
  destruct (session_user w); cbn; [|done].
  by destruct (truthy (opt_stripe_customer_id _)).
Qed.

(* --------------------------------------------------------------------- *)
(* checkLessonPlanCreationEligibility: the calls and the count           *)
(* --------------------------------------------------------------------- *)

Lemma lessonPlan_count_snoc rows p uid gte lte :
  lessonPlan_count (rows ++ [p]) uid gte lte =
    lessonPlan_count rows uid gte lte +
    (if in_window uid gte lte p then 1 else 0).
Proof.
  unfold lessonPlan_count.
  rewrite List.filter_app, length_app. cbn [List.filter].
  destruct (in_window uid gte lte p); cbn [length]; lia.
Qed.

Lemma lessonPlan_count_none rows uid gte lte :
  Forall (fun p => in_window uid gte lte p = false) rows ->
  lessonPlan_count rows uid gte lte = 0.
Proof.
  unfold lessonPlan_count.
  induction 1 as [|p rows Hp _ IH]; [done|].
  cbn [List.filter]. rewrite Hp. exact IH.
Qed.

Section Usage.
Context `{Host}.

(** The run for a signed-in user with a row, with the calls of the
    inner hasSubscription spelled out. *)
Lemma check_resolved_log w uid u c info cs :
  truthy (session_userId w) = Some uid ->
  session_user w = Some u ->
  user_table w !! uid = Some c ->
  (forall l,
     hasSubscription (with_calls l w) = (Ok info, with_calls (l ++ cs) w)) ->
  checkLessonPlanCreationEligibility w =
    let '(isSubscribed, periodStart, periodEnd) :=
      period_of (subscriptionData info) (clock w) in
    (Ok (decision_of isSubscribed periodEnd (clock w)
           (lessonPlan_count (lessonPlan_table w) uid periodStart periodEnd)),
     with_calls (calls w ++ [Clerk_auth; Clerk_currentUser;
                             Prisma_user_findUnique uid] ++ cs ++
                 [Prisma_lessonPlan_count uid periodStart periodEnd]) w).
Proof.
  intros Hid Hu Hrow Hrun.
  rewrite <- (with_calls_id w) at 1.
  unfold checkLessonPlanCreationEligibility, bind at 1 2 3.
  unfold auth, currentUser, prisma_user_findUnique.
  cbn. rewrite Hid, Hu. cbn. rewrite Hrow.
  unfold bind at 1. log_norm. rewrite Hrun.
  unfold bind at 1, new_Date. cbn [clock with_calls].
  unfold period_of.
  destruct (subscriptionData info) as [|subscription rest];
    unfold bind, prisma_lessonPlan_count, decision_of, ret;
    cbn [db_id lessonPlan_table with_calls];
    log_norm;
    destruct (Z.max 0 _ =? 0); reflexivity.
Qed.

(** The two early returns, with their calls spelled out. *)
Lemma check_unresolved_log w :
  (truthy (session_userId w) = None \/ session_user w = None \/
   exists uid, truthy (session_userId w) = Some uid /\
               user_table w !! uid = None) ->
  checkLessonPlanCreationEligibility w =
    (Ok notLoggedIn, with_calls (calls w ++ [Clerk_auth; Clerk_currentUser]) w) \/
  exists uid,
    checkLessonPlanCreationEligibility w =
      (Ok notLoggedIn,
       with_calls (calls w ++ [Clerk_auth; Clerk_currentUser;
                               Prisma_user_findUnique uid]) w).
Proof.
  intros Hno.
  unfold checkLessonPlanCreationEligibility, bind, auth, currentUser,
    prisma_user_findUnique, ret.
  cbn.
  destruct (truthy (session_userId w)) as [uid|] eqn:Hid.
  - destruct (session_user w) as [u|] eqn:Hu; cbn.
    + destruct Hno as [[=] | [[=] | (uid' & [= <-] & Hrow)]].
      rewrite Hrow. right. exists uid. log_norm. reflexivity.
    + left. log_norm. reflexivity.
  - left. destruct (session_user w); log_norm; reflexivity.
Qed.

(** X10.  checkLessonPlanCreationEligibility only reads, whoever the
    session names: the world is as before but for the log, no call is
    a write, and it asks for at most one usage count and contacts
    Stripe at most once. *)
Theorem eligibility_check_never_writes w :
  exists d cs,
    checkLessonPlanCreationEligibility w =
      (Ok d, with_calls (calls w ++ cs) w) /\
    Forall (fun c => is_write c = false) cs /\
    (length (List.filter is_usage_query cs) <= 1)%nat /\
    (length (List.filter is_stripe_call cs) <= 1)%nat.
Proof.
  destruct (resolved_or_not w) as [(uid & u & c & Hid & Hu & Hrow) | Hno].
  - destruct (hasSubscription_shape w) as (info & cs & Hrun & Hcs & Hstripe & _).
    rewrite (check_resolved_log w uid u c info cs Hid Hu Hrow Hrun).
    destruct (period_of _ _) as [[isSub gte] lte].
    eexists _, _. split; [reflexivity|].
    assert (Husage : List.filter is_usage_query cs = []).
    { clear -Hcs. induction Hcs as [|x cs [_ Hx] _ IH]; [done|].
      cbn [List.filter]. by rewrite Hx. }
    split; [|split].
    + repeat (apply Forall_cons; split; [done|]).
      apply Forall_app. split; [|by repeat constructor].
      eapply Forall_impl; [exact Hcs|]. by intros x [? _].
    + cbn [app List.filter is_usage_query].
      rewrite List.filter_app, length_app, Husage. cbn. lia.
    + cbn [app List.filter is_stripe_call].
      rewrite List.filter_app, length_app. cbn. lia.
  - destruct (check_unresolved_log w Hno) as [Hrun | (uid & Hrun)];
      eexists _, _; (split; [exact Hrun|]);
      (split; [by repeat constructor|]); cbn; lia.
Qed.

(** X11.  For a signed-in user with a row, the calls are, in order:
    auth, currentUser, findUnique; the same three again, inside
    hasSubscription; subscriptions.list when the row holds a customer
    id, and only then; and one lessonPlan count for the user. *)
Theorem eligibility_check_call_log w uid u c :
  truthy (session_userId w) = Some uid ->
  session_user w = Some u ->
  user_table w !! uid = Some c ->
  exists d w' gte lte,
    checkLessonPlanCreationEligibility w = (Ok d, w') /\
    calls w' =
      (calls w ++
       [Clerk_auth; Clerk_currentUser; Prisma_user_findUnique uid;
        Clerk_auth; Clerk_currentUser; Prisma_user_findUnique uid] ++
       match truthy c with
       | Some customer => [Stripe_subscriptions_list customer]
       | None => []
       end ++
       [Prisma_lessonPlan_count uid gte lte])%list.
Proof.
  intros Hid Hu Hrow.
  assert (Hrun : exists info,
    forall l, hasSubscription (with_calls l w) =
      (Ok info,
       with_calls (l ++ [Clerk_auth; Clerk_currentUser;
                         Prisma_user_findUnique uid] ++
                   match truthy c with
                   | Some customer => [Stripe_subscriptions_list customer]
                   | None => []
                   end) w)).
  { destruct (truthy c) as [customer|] eqn:Hc.
    - exists {| isSubscribed :=
                  (Z.of_nat (length (default [] (stripe_subscriptions w !! customer))) >? 0);
                subscriptionData := default [] (stripe_subscriptions w !! customer) |}.
      intros l.
      rewrite (hasSubscription_signed_in (with_calls l w) uid u c Hid Hu Hrow),
        Hc.
      reflexivity.
    - exists {| isSubscribed := false; subscriptionData := [] |}.
      intros l.
      rewrite (hasSubscription_signed_in (with_calls l w) uid u c Hid Hu Hrow),
        Hc.
      reflexivity. }
  destruct Hrun as (info & Hrun).
  rewrite (check_resolved_log w uid u c info _ Hid Hu Hrow Hrun).
  destruct (period_of _ _) as [[isSub gte] lte].
  eexists _, _, gte, lte. split; [reflexivity|].
  cbn [calls with_calls]. by rewrite <- !(assoc_L (++)).
Qed.

(** X12.  One more lesson plan of the user inside the counting window
    lowers remainingGenerations by one, and never below zero. *)
Theorem one_more_plan_in_window w uid u c info isSub gte lte p :
  truthy (session_userId w) = Some uid ->
  session_user w = Some u ->
  user_table w !! uid = Some c ->
  (hasSubscription w).1 = Ok info ->
  period_of (subscriptionData info) (clock w) = (isSub, gte, lte) ->
  userId p = uid ->
  gte <= createdAt p <= lte ->
  exists d d',
    (checkLessonPlanCreationEligibility w).1 = Ok d /\
    (checkLessonPlanCreationEligibility
       (set_lessonPlan_table (lessonPlan_table w ++ [p]) w)).1 = Ok d' /\
    remainingGenerations d' = Z.max 0 (remainingGenerations d - 1).
Proof.
  intros Hid Hu Hrow Hinfo Hperiod Hp Hin.
  destruct (check_resolved w uid u c info Hid Hu Hrow Hinfo) as (pre & _ & Hrun).
  specialize (Hrun (calls w)). rewrite with_calls_id, Hperiod in Hrun.
  set (w2 := set_lessonPlan_table (lessonPlan_table w ++ [p]) w).
  assert (Hinfo2 : (hasSubscription w2).1 = Ok info)
    by by unfold w2; rewrite hasSubscription_lessonPlans.
  destruct (check_resolved w2 uid u c info Hid Hu Hrow Hinfo2)
    as (pre2 & _ & Hrun2).
  specialize (Hrun2 (calls w2)). rewrite with_calls_id in Hrun2.
  cbn [w2 clock set_lessonPlan_table lessonPlan_table] in Hrun2.
  rewrite Hperiod in Hrun2.
  eexists _, _. rewrite Hrun, Hrun2. cbn [fst].
  split; [reflexivity|]. split; [reflexivity|].
  rewrite !decision_of_remaining, lessonPlan_count_snoc.
  assert (Hw : in_window uid gte lte p = true) by by apply in_window_spec.
  rewrite Hw. lia.
Qed.

(** X13.  A lesson plan of somebody else, or one created outside the
    counting window, changes nothing in the decision. *)
Theorem plan_outside_window_ignored w uid u c info isSub gte lte p :
  truthy (session_userId w) = Some uid ->
  session_user w = Some u ->
  user_table w !! uid = Some c ->
  (hasSubscription w).1 = Ok info ->
  period_of (subscriptionData info) (clock w) = (isSub, gte, lte) ->
  userId p <> uid \/ createdAt p < gte \/ lte < createdAt p ->
  exists d,
    (checkLessonPlanCreationEligibility w).1 = Ok d /\
    (checkLessonPlanCreationEligibility
       (set_lessonPlan_table (lessonPlan_table w ++ [p]) w)).1 = Ok d.
Proof.
  intros Hid Hu Hrow Hinfo Hperiod Hout.
  destruct (check_resolved w uid u c info Hid Hu Hrow Hinfo) as (pre & _ & Hrun).
  specialize (Hrun (calls w)). rewrite with_calls_id, Hperiod in Hrun.
  set (w2 := set_lessonPlan_table (lessonPlan_table w ++ [p]) w).
  assert (Hinfo2 : (hasSubscription w2).1 = Ok info)
    by by unfold w2; rewrite hasSubscription_lessonPlans.
  destruct (check_resolved w2 uid u c info Hid Hu Hrow Hinfo2)
    as (pre2 & _ & Hrun2).
  specialize (Hrun2 (calls w2)). rewrite with_calls_id in Hrun2.
  cbn [w2 clock set_lessonPlan_table lessonPlan_table] in Hrun2.
  rewrite Hperiod in Hrun2.
  eexists. rewrite Hrun, Hrun2. cbn [fst].
  split; [reflexivity|].
  rewrite lessonPlan_count_snoc.
  assert (Hw : in_window uid gte lte p = false).
  { destruct (in_window uid gte lte p) eqn:E; [|done].
    apply in_window_spec in E. destruct Hout as [? | [? | ?]]; [tauto | lia..]. }
  rewrite Hw. by rewrite Z.add_0_r.
Qed.

(** X14.  The free quota comes back with time: for a user without any
    subscription, once every lesson plan of theirs is more than twelve
    hours old, all 10 generations are available again. *)
Theorem free_quota_recovers w uid u c info :
  truthy (session_userId w) = Some uid ->
  session_user w = Some u ->
  user_table w !! uid = Some c ->
  (hasSubscription w).1 = Ok info ->
  subscriptionData info = [] ->
  Forall (fun p => userId p = uid ->
                   createdAt p < clock w - 12 * 60 * 60 * 1000)
    (lessonPlan_table w) ->
  (checkLessonPlanCreationEligibility w).1 =
    Ok {| isEligible := true;
          message := "You have 10 lesson plan generations remaining for this month";
          remainingGenerations := 10 |}.
Proof.
  intros Hid Hu Hrow Hinfo Hsubs Hold.
  destruct (check_resolved w uid u c info Hid Hu Hrow Hinfo) as (pre & _ & Hrun).
  specialize (Hrun (calls w)). rewrite with_calls_id, Hsubs in Hrun.
  cbn [period_of] in Hrun. rewrite Hrun. cbn [fst].
  rewrite lessonPlan_count_none; [reflexivity|].
  eapply Forall_impl; [exact Hold|].
  intros p Hp. destruct (in_window _ _ _ p) eqn:E; [|done].
  apply in_window_spec in E as [Hu' [Hge _]].
  specialize (Hp Hu'). lia.
Qed.

(** X15.  Only the first subscription Stripe returns is looked at: two
    subscription lists with the same first entry give the same
    decision, whatever follows it. *)
Theorem only_first_subscription_counts w m uid u c info info' s rest rest' :
  truthy (session_userId w) = Some uid ->
  session_user w = Some u ->
  user_table w !! uid = Some c ->
  (hasSubscription w).1 = Ok info ->
  (hasSubscription (set_stripe_subscriptions m w)).1 = Ok info' ->
  subscriptionData info = s :: rest ->
  subscriptionData info' = s :: rest' ->
  exists d,
    (checkLessonPlanCreationEligibility w).1 = Ok d /\
    (checkLessonPlanCreationEligibility (set_stripe_subscriptions m w)).1 = Ok d.
Proof.
  intros Hid Hu Hrow Hinfo Hinfo' Hsubs Hsubs'.
  destruct (check_resolved w uid u c info Hid Hu Hrow Hinfo) as (pre & _ & Hrun).
  specialize (Hrun (calls w)). rewrite with_calls_id, Hsubs in Hrun.
  destruct (check_resolved (set_stripe_subscriptions m w) uid u c info'
              Hid Hu Hrow Hinfo') as (pre' & _ & Hrun').
  specialize (Hrun' (calls (set_stripe_subscriptions m w))).
  rewrite with_calls_id, Hsubs' in Hrun'.
  cbn [period_of] in Hrun, Hrun'.
  eexists. rewrite Hrun, Hrun'. split; reflexivity.
Qed.

(** X16.  A signed-in user with a row is eligible exactly while the
    number of their lesson plans in the counting window is below the
    limit: 30 with an "active" first subscription, 10 otherwise. *)
Theorem eligible_iff_below_limit w uid u c info isSub gte lte :
  truthy (session_userId w) = Some uid ->
  session_user w = Some u ->
  user_table w !! uid = Some c ->
  (hasSubscription w).1 = Ok info ->
  period_of (subscriptionData info) (clock w) = (isSub, gte, lte) ->
  exists d,
    (checkLessonPlanCreationEligibility w).1 = Ok d /\
    (isEligible d = true <->
     lessonPlan_count (lessonPlan_table w) uid gte lte <
       (if first_active (subscriptionData info) then 30 else 10)).
Proof.
  intros Hid Hu Hrow Hinfo Hperiod.
  destruct (check_resolved w uid u c info Hid Hu Hrow Hinfo) as (pre & _ & Hrun).
  specialize (Hrun (calls w)). rewrite with_calls_id in Hrun.
  pose proof (period_of_first_active (subscriptionData info) (clock w)) as Hact.
  rewrite Hperiod in Hrun, Hact. cbn in Hact. subst isSub.
  eexists. rewrite Hrun. split; [reflexivity|].
  rewrite decision_of_eligible, decision_of_remaining, Z.ltb_lt. lia.
Qed.

End Usage.

(* --------------------------------------------------------------------- *)
(* generateCustomerPortalLink and createCheckoutLink                     *)
(* --------------------------------------------------------------------- *)

(** X17.  Without a customer id (null, or the empty string) each of
    the two link generators throws its own error, outside the try
    block: the message is not wrapped in "Failed to ...", no request
    goes to Stripe and nothing is written to the console. *)
Theorem links_require_customer customerId s :
  truthy customerId = None ->
  Links.generateCustomerPortalLink customerId s =
    (Throw "Customer ID is required to generate portal link", s) /\
  Links.createCheckoutLink customerId s =
    (Throw "Customer ID is required to create checkout link", s).
Proof.
  intros Hid.
  unfold Links.generateCustomerPortalLink, Links.createCheckoutLink.
  by rewrite Hid.
Qed.

(** X18.  With a customer id, generateCustomerPortalLink sends exactly
    one request: a billing-portal session for that customer, returning
    to NEXT_PUBLIC_APP_URL/dashboard.  It returns a link only when
    Stripe made the session, and then that session's url, with nothing
    written to the console; when Stripe throws, the error is written to
    the console once and thrown again as "Failed to generate portal
    link: " followed by Stripe's message. *)
Theorem generateCustomerPortalLink_outcome customerId id s :
  truthy customerId = Some id ->
  let return_url := Links.template_env (Links.NEXT_PUBLIC_APP_URL s) +:+ "/dashboard" in
  let r := Links.generateCustomerPortalLink customerId s in
  Links.requests r.2 =
    (Links.requests s ++ [Links.BillingPortal_sessions_create id return_url])%list /\
  (forall link, r.1 = Ok link <-> Links.portal_answer s id return_url = Ok link) /\
  (forall link, r.1 = Ok link -> Links.console r.2 = Links.console s) /\
  (forall e, Links.portal_answer s id return_url = Throw e ->
     r.1 = Throw ("Failed to generate portal link: " +:+ e) /\
     Links.console r.2 =
       (Links.console s ++ [("Error generating customer portal link:", e)])%list).
Proof.
  intros Hid return_url r. subst r.
  unfold Links.generateCustomerPortalLink,
    Links.stripe_billingPortal_sessions_create.
  rewrite Hid. fold return_url.
  destruct (Links.portal_answer s id return_url) as [link|e]; cbn.
  - split; [reflexivity|]. split; [done|]. split; [done|]. done.
  - split; [reflexivity|]. split; [done|]. split; [done|].
    by intros e' [= <-].
Qed.

(** X19.  With a customer id, createCheckoutLink sends exactly one
    request: a checkout session in mode "subscription" for that
    customer, with one line item (the price STRIPE_PRICE_ID, quantity
    1), succeeding at NEXT_PUBLIC_APP_URL/dashboard/course.  It returns
    the session's url as Stripe gave it (null included) and writes
    nothing to the console; when Stripe throws, the error is written to
    the console once and thrown again as "Failed to create checkout
    link: " followed by Stripe's message. *)
Theorem createCheckoutLink_outcome customerId id s :
  truthy customerId = Some id ->
  let success_url :=
    Links.template_env (Links.NEXT_PUBLIC_APP_URL s) +:+ "/dashboard/course" in
  let items := [ {| Links.price := Links.STRIPE_PRICE_ID s; Links.quantity := 1 |} ] in
  let r := Links.createCheckoutLink customerId s in
  Links.requests r.2 =
    (Links.requests s ++
     [Links.Checkout_sessions_create success_url id items "subscription"])%list /\
  (forall link,
     r.1 = Ok link <->
     Links.checkout_answer s success_url id items "subscription" = Ok link) /\
  (forall link, r.1 = Ok link -> Links.console r.2 = Links.console s) /\
  (forall e,
     Links.checkout_answer s success_url id items "subscription" = Throw e ->
     r.1 = Throw ("Failed to create checkout link: " +:+ e) /\
     Links.console r.2 =
       (Links.console s ++ [("Error creating checkout link:", e)])%list).
Proof.
  intros Hid success_url items r. subst r.
  unfold Links.createCheckoutLink, Links.stripe_checkout_sessions_create.
  rewrite Hid. fold success_url items.
  destruct (Links.checkout_answer s success_url id items "subscription")
    as [link|e]; cbn.
  - split; [reflexivity|]. split; [done|]. split; [done|]. done.
  - split; [reflexivity|]. split; [done|]. split; [done|].
    by intros e' [= <-].
Qed.

(* --------------------------------------------------------------------- *)
(* The further properties at the sample worlds                           *)
(* --------------------------------------------------------------------- *)

Lemma createCustomerIfNull_unauthenticated_witness :
  createCustomerIfNull Scenario.signed_out =
    (Throw "User not authenticated",
     with_calls (calls Scenario.signed_out ++ [Clerk_currentUser])
       Scenario.signed_out).
Proof.
  apply (createCustomerIfNull_unauthenticated Scenario.signed_out).
  reflexivity.
Defined.

Lemma createCustomerIfNull_fresh_customer_witness :
  exists w',
    createCustomerIfNull Scenario.free_user = (Ok "cus_0", w') /\
    stripe_customers w' =
      [ {| customer_id := "cus_0"; customer_email := "ada@example.com";
           customer_name := "Ada null" |} ] /\
    user_table w' = <["user_free" := Some "cus_0"]> Sample.users /\
    calls w' =
      [Clerk_currentUser; Prisma_user_findUnique "user_free";
       Stripe_customers_create "ada@example.com" "Ada null";
       Prisma_user_update "user_free" "cus_0"] /\
    lessonPlan_table w' = [] /\
    stripe_subscriptions w' = Sample.subs /\
    session_userId w' = Some "user_free" /\
    session_user w' = Some (Sample.clerk "user_free").
Proof.
  exact (createCustomerIfNull_fresh_customer Scenario.free_user
           (Sample.clerk "user_free") None
           {| emailAddress := "ada@example.com" |} []
           eq_refl eq_refl eq_refl eq_refl).
Defined.

Lemma createCustomerIfNull_postcondition_witness :
  let w' := (createCustomerIfNull Scenario.free_user).2 in
  user_table w' !! "user_free" = Some (Some "cus_0") /\
  (forall k, k <> "user_free" -> user_table w' !! k = Sample.users !! k) /\
  (stripe_customers w' = [] \/
   exists c, customer_id c = "cus_0" /\
             stripe_customers w' = ([] ++ [c])%list) /\
  lessonPlan_table w' = [] /\
  stripe_subscriptions w' = Sample.subs.
Proof.
  apply (createCustomerIfNull_postcondition Scenario.free_user
           (Sample.clerk "user_free") "cus_0"
           (createCustomerIfNull Scenario.free_user).2);
    reflexivity.
Defined.

Lemma createCustomerIfNull_twice_witness :
  exists id w1,
    createCustomerIfNull Scenario.free_user = (Ok id, w1) /\
    length (stripe_customers w1) = 1%nat /\
    createCustomerIfNull w1 =
      (Ok id, with_calls (calls w1 ++ [Clerk_currentUser;
                                       Prisma_user_findUnique "user_free"]) w1).
Proof.
  apply (createCustomerIfNull_twice Scenario.free_user
           (Sample.clerk "user_free") None
           {| emailAddress := "ada@example.com" |} []);
    [reflexivity..|].
  discriminate.
Defined.

Lemma createCustomerIfNull_orphan_customer_witness :
  exists msg w',
    createCustomerIfNull Scenario.stranger = (Throw msg, w') /\
    stripe_customers w' =
      [ {| customer_id := "cus_0"; customer_email := "ada@example.com";
           customer_name := "Ada null" |} ] /\
    user_table w' = Sample.users /\
    calls w' =
      [Clerk_currentUser; Prisma_user_findUnique "nobody";
       Stripe_customers_create "ada@example.com" "Ada null";
       Prisma_user_update "nobody" "cus_0"].
Proof.
  exact (createCustomerIfNull_orphan_customer Scenario.stranger
           (Sample.clerk "nobody") {| emailAddress := "ada@example.com" |} []
           eq_refl eq_refl eq_refl).
Defined.

Lemma createCustomerIfNull_no_email_witness :
  createCustomerIfNull Scenario.no_email =
    (Throw "Cannot read properties of undefined (reading 'emailAddress')",
     with_calls [Clerk_currentUser; Prisma_user_findUnique "user_free"]
       Scenario.no_email).
Proof.
  apply (createCustomerIfNull_no_email Scenario.no_email
           {| clerk_id := "user_free"; firstName := None; lastName := None;
              emailAddresses := [] |});
    [reflexivity | | reflexivity].
  right. exists None. split; reflexivity.
Defined.

Lemma createCustomerIfNull_then_hasSubscription_witness :
  exists id w1,
    createCustomerIfNull Scenario.free_user = (Ok id, w1) /\
    let subscriptions := default [] (Sample.subs !! id) in
    hasSubscription w1 =
      (Ok {| isSubscribed := (Z.of_nat (length subscriptions) >? 0);
             subscriptionData := subscriptions |},
       with_calls (calls w1 ++ [Clerk_auth; Clerk_currentUser;
                                Prisma_user_findUnique "user_free";
                                Stripe_subscriptions_list id]) w1).
Proof.
  apply (createCustomerIfNull_then_hasSubscription Scenario.free_user
           (Sample.clerk "user_free") None
           {| emailAddress := "ada@example.com" |} []);
    [reflexivity..|].
  discriminate.
Defined.

Lemma hasSubscription_without_customer_witness :
  exists cs,
    hasSubscription Scenario.free_user =
      (Ok {| isSubscribed := false; subscriptionData := [] |},
       with_calls (calls Scenario.free_user ++ cs) Scenario.free_user) /\
    Forall (fun c => is_stripe_call c = false) cs.
Proof.
  apply (hasSubscription_without_customer Scenario.free_user).
  right. right. exists "user_free". split; [reflexivity|].
  right. exists None. split; reflexivity.
Defined.

Lemma eligibility_check_call_log_witness :
  exists d w' gte lte,
    checkLessonPlanCreationEligibility Scenario.paid_user = (Ok d, w') /\
    calls w' =
      [Clerk_auth; Clerk_currentUser; Prisma_user_findUnique "user_paid";
       Clerk_auth; Clerk_currentUser; Prisma_user_findUnique "user_paid";
       Stripe_subscriptions_list "cus_paid";
       Prisma_lessonPlan_count "user_paid" gte lte].
Proof.
  exact (eligibility_check_call_log Scenario.paid_user "user_paid"
           (Sample.clerk "user_paid") (Some "cus_paid")
           eq_refl eq_refl eq_refl).
Defined.

Lemma one_more_plan_in_window_witness :
  let p := {| userId := "user_paid"; createdAt := 1701000000500 |} in
  exists d d',
    (checkLessonPlanCreationEligibility Scenario.paid_user).1 = Ok d /\
    (checkLessonPlanCreationEligibility
       (set_lessonPlan_table (lessonPlan_table Scenario.paid_user ++ [p])
          Scenario.paid_user)).1 = Ok d' /\
    remainingGenerations d' = Z.max 0 (remainingGenerations d - 1).
Proof.
  refine (one_more_plan_in_window Scenario.paid_user "user_paid"
            (Sample.clerk "user_paid") (Some "cus_paid")
            {| isSubscribed := true; subscriptionData := [Sample.sub "active"] |}
            true 1700000000000 1702592000000
            {| userId := "user_paid"; createdAt := 1701000000500 |}
            eq_refl eq_refl eq_refl eq_refl eq_refl eq_refl _).
  cbn. lia.
Defined.

Lemma plan_outside_window_ignored_witness :
  let p := {| userId := "user_paid"; createdAt := 1702592000001 |} in
  exists d,
    (checkLessonPlanCreationEligibility Scenario.paid_user).1 = Ok d /\
    (checkLessonPlanCreationEligibility
       (set_lessonPlan_table (lessonPlan_table Scenario.paid_user ++ [p])
          Scenario.paid_user)).1 = Ok d.
Proof.
  refine (plan_outside_window_ignored Scenario.paid_user "user_paid"
            (Sample.clerk "user_paid") (Some "cus_paid")
            {| isSubscribed := true; subscriptionData := [Sample.sub "active"] |}
            true 1700000000000 1702592000000
            {| userId := "user_paid"; createdAt := 1702592000001 |}
            eq_refl eq_refl eq_refl eq_refl eq_refl _).
  right. right. cbn. lia.
Defined.

Lemma free_quota_recovers_witness :
  (checkLessonPlanCreationEligibility
     (Sample.world (Some "user_free")
        (Sample.plans "user_free" 1700956800999 10) 1701000001000)).1 =
  Ok {| isEligible := true;
        message := "You have 10 lesson plan generations remaining for this month";
        remainingGenerations := 10 |}.
Proof.
  refine (free_quota_recovers
            (Sample.world (Some "user_free")
               (Sample.plans "user_free" 1700956800999 10) 1701000001000)
            "user_free" (Sample.clerk "user_free") None
            {| isSubscribed := false; subscriptionData := [] |}
            eq_refl eq_refl eq_refl eq_refl eq_refl _).
  cbn. repeat constructor; cbn; lia.
Defined.

(** One millisecond younger and the ten plans are all inside the
    window again. *)
Example free_quota_not_yet :
  (checkLessonPlanCreationEligibility
     (Sample.world (Some "user_free")
        (Sample.plans "user_free" 1700956801000 10) 1701000001000)).1 =
  Ok {| isEligible := false;
        message := "You have reached the maximum number of lesson plan generations (10) for the free tier. You can generate more starting 11/26/2023";
        remainingGenerations := 0 |}.
Proof. reflexivity. Qed.

Lemma only_first_subscription_counts_witness :
  exists d,
    (checkLessonPlanCreationEligibility Scenario.paid_user).1 = Ok d /\
    (checkLessonPlanCreationEligibility
       (set_stripe_subscriptions Scenario.two_subscriptions
          Scenario.paid_user)).1 = Ok d.
Proof.
  exact (only_first_subscription_counts Scenario.paid_user
           Scenario.two_subscriptions "user_paid"
           (Sample.clerk "user_paid") (Some "cus_paid")
           {| isSubscribed := true; subscriptionData := [Sample.sub "active"] |}
           {| isSubscribed := true;
              subscriptionData := [Sample.sub "active"; Sample.sub "canceled"] |}
           (Sample.sub "active") [] [Sample.sub "canceled"]
           eq_refl eq_refl eq_refl eq_refl eq_refl eq_refl eq_refl).
Defined.

Lemma eligible_iff_below_limit_witness :
  exists d,
    (checkLessonPlanCreationEligibility Scenario.paid_user).1 = Ok d /\
    (isEligible d = true <->
     lessonPlan_count (lessonPlan_table Scenario.paid_user) "user_paid"
       1700000000000 1702592000000 < 30).
Proof.
  exact (eligible_iff_below_limit Scenario.paid_user "user_paid"
           (Sample.clerk "user_paid") (Some "cus_paid")
           {| isSubscribed := true; subscriptionData := [Sample.sub "active"] |}
           true 1700000000000 1702592000000
           eq_refl eq_refl eq_refl eq_refl eq_refl).
Defined.

Lemma links_require_customer_witness :
  Links.generateCustomerPortalLink (Some "") Links.sample =
    (Throw "Customer ID is required to generate portal link", Links.sample) /\
  Links.createCheckoutLink (Some "") Links.sample =
    (Throw "Customer ID is required to create checkout link", Links.sample).
Proof.
  exact (links_require_customer (Some "") Links.sample eq_refl).
Defined.

Lemma generateCustomerPortalLink_outcome_witness :
  let return_url := "https://corely.example/dashboard" in
  let r := Links.generateCustomerPortalLink (Some "cus_paid") Links.sample in
  Links.requests r.2 =
    [Links.BillingPortal_sessions_create "cus_paid" return_url] /\
  (forall link,
     r.1 = Ok link <->
     Links.portal_answer Links.sample "cus_paid" return_url = Ok link) /\
  (forall link, r.1 = Ok link -> Links.console r.2 = []) /\
  (forall e,
     Links.portal_answer Links.sample "cus_paid" return_url = Throw e ->
     r.1 = Throw ("Failed to generate portal link: " +:+ e) /\
     Links.console r.2 = [("Error generating customer portal link:", e)]).
Proof.
  exact (generateCustomerPortalLink_outcome (Some "cus_paid") "cus_paid"
           Links.sample eq_refl).
Defined.

Example portal_link_made :
  (Links.generateCustomerPortalLink (Some "cus_paid") Links.sample).1 =
  Ok "https://billing.stripe.example/p/session/1".
Proof. reflexivity. Qed.

Example portal_link_refused :
  let r := Links.generateCustomerPortalLink (Some "cus_gone") Links.sample in
  r.1 = Throw "Failed to generate portal link: No such customer: 'cus_gone'" /\
  Links.console r.2 =
    [("Error generating customer portal link:", "No such customer: 'cus_gone'")] /\
  Links.requests r.2 =
    [Links.BillingPortal_sessions_create "cus_gone"
       "https://corely.example/dashboard"].
Proof. repeat split. Qed.

Lemma createCheckoutLink_outcome_witness :
  let success_url := "https://corely.example/dashboard/course" in
  let items := [ {| Links.price := Some "price_1"; Links.quantity := 1 |} ] in
  let r := Links.createCheckoutLink (Some "cus_paid") Links.sample in
  Links.requests r.2 =
    [Links.Checkout_sessions_create success_url "cus_paid" items "subscription"] /\
  (forall link,
     r.1 = Ok link <->
     Links.checkout_answer Links.sample success_url "cus_paid" items
       "subscription" = Ok link) /\
  (forall link, r.1 = Ok link -> Links.console r.2 = []) /\
  (forall e,
     Links.checkout_answer Links.sample success_url "cus_paid" items
       "subscription" = Throw e ->
     r.1 = Throw ("Failed to create checkout link: " +:+ e) /\
     Links.console r.2 = [("Error creating checkout link:", e)]).
Proof.
  exact (createCheckoutLink_outcome (Some "cus_paid") "cus_paid"
           Links.sample eq_refl).
Defined.
